(** * covid19: the data pipeline of main.go

    A shallow embedding of the parts of [main.go] that decode the time
    series, build the two country indexes and prepare the tables and chart
    series, followed by the properties of the specification that concern
    them.

    Conventions.
    - Go's [int] is taken to be 64 bits wide: a [Z] with the wrap-around of
      [+] and [-] written out ([Int.add], [Int.sub]).
    - Go's [float64] is Rocq's primitive binary64 [float].
    - A Go [string] is a [string] of bytes.
    - A run-time panic (index out of range) is the outcome [Panic].
    - Go leaves the iteration order of [range] over a map unspecified: every
      loop over [AllValues] takes the order in which the entries are visited
      as an explicit list [order]; the theorems assume no more of it than
      that it is a permutation of the entries of the map.
    - The libraries whose code is not part of the repository
      (jsonparser, encoding/json, sort) appear through what they hand to
      the code of [main.go]. *)

From Stdlib Require Import ZArith String Ascii List Sorted OrderedTypeEx PrimFloat Uint63 Lia.
From stdpp Require Import gmap strings list fin_maps.

Local Open Scope Z_scope.

(** ** Go's int *)

Module Int.
Definition min_int : Z := - 2 ^ 63.
Definition max_int : Z := 2 ^ 63 - 1.

Definition in_range (z : Z) : Prop := min_int <= z <= max_int.

(** Two's complement wrap-around to 64 bits. *)
Definition wrap (z : Z) : Z := (z + 2 ^ 63) mod 2 ^ 64 - 2 ^ 63.

Definition add (x y : Z) : Z := wrap (x + y).
Definition sub (x y : Z) : Z := wrap (x - y).
End Int.

(** ** Go's float64 *)

Module Float64.
Definition zero : float := PrimFloat.of_uint63 0%uint63.

(** [float64(n)] for an int [n]: the nearest binary64, ties to even.
    [of_uint63] converts the magnitudes below [2^63]; [2^63] itself is a
    power of two and is reached by doubling [2^62]. *)
Definition of_magnitude (m : Z) : float :=
  if m =? 2 ^ 63
  then PrimFloat.add (PrimFloat.of_uint63 (Uint63.of_Z (2 ^ 62)))
                     (PrimFloat.of_uint63 (Uint63.of_Z (2 ^ 62)))
  else PrimFloat.of_uint63 (Uint63.of_Z m).

Definition of_int (n : Z) : float :=
  if n <? 0 then PrimFloat.opp (of_magnitude (- n)) else of_magnitude n.

Definition add : float -> float -> float := PrimFloat.add.

(** The float64 sum of a list, accumulated from the left starting at 0. *)
Definition sum (l : list float) : float := fold_left add l zero.
End Float64.

(** ** Outcomes of a run *)

(** What a piece of code that may panic produces. *)
Inductive outcome (A : Type) : Type :=
| Returned (a : A)
| Panic.
Arguments Returned {A} a.
Arguments Panic {A}.

#[global] Instance outcome_ret : MRet outcome := @Returned.

#[global] Instance outcome_bind : MBind outcome := fun A B k o =>
  match o with
  | Returned a => k a
  | Panic => Panic
  end.

(** A loop over a list whose body may panic. *)
Fixpoint foldM {A B} (f : B -> A -> outcome B) (l : list A) (b : B) : outcome B :=
  match l with
  | [] => Returned b
  | a :: l' => b' ← f b a; foldM f l' b'
  end.

(** Go's [error] values of this program are messages. *)
Definition error : Type := string.

(** The result of a function of [main.go] that returns an [error]:
    the value it computed, or the error. *)
Inductive result (A : Type) : Type :=
| Ok (a : A)
| Err (e : error).
Arguments Ok {A} a.
Arguments Err {A} e.

(** ** Slices *)

Definition len {A} (s : list A) : Z := Z.of_nat (length s).

(** [s[i]]: panics when [i] is negative or not below [len(s)]. *)
Definition at_index {A} (s : list A) (i : Z) : outcome A :=
  if i <? 0 then Panic
  else match s !! Z.to_nat i with
       | Some x => Returned x
       | None => Panic
       end.

(** ** The data of main.go (lines 25-46) *)

Record DayItem : Type := mkDayItem {
  Date : string;
  Confirmed : Z;
  Deaths : Z;
  Recovered : Z
}.

(** The zero value of the struct: what [var dayItem DayItem] holds. *)
Definition zeroDayItem : DayItem := mkDayItem "" 0 0 0.

Record Pair : Type := mkPair {
  Key : string;
  Value : Z
}.

Definition PairList : Type := list Pair.

(** [map[string][]DayItem]. *)
Abbreviation Dataset := (gmap string (list DayItem)).

(** The package-level variables. *)
Record Globals : Type := mkGlobals {
  AllValues : Dataset;
  NameSortedCountries : list string;
  ValueSortedCountries : PairList
}.

(** They are empty when the process starts. *)
Definition initial_globals : Globals := mkGlobals ∅ [] [].

(** ** Decoding (FetchData, lines 209-221)

    [FetchData] hands the raw bytes to [jsonparser.ObjectEach], each value
    of the top-level object to [jsonparser.ArrayEach], and each element of
    such an array to [json.Unmarshal].  The code never looks inside a byte
    slice itself, so the type of the slices is left open, and the three
    library calls are given by what they deliver:
    - [object_entries data]: the key/value pairs [ObjectEach] passes to its
      callback, in order, as long as the callback returns [nil];
    - [object_err data]: the error [ObjectEach] returns itself after the
      last of them ([None] for [nil]);
    - [array_elems value]: the elements [ArrayEach] passes to its callback
      (the error [ArrayEach] returns is dropped by [FetchData]);
    - [Unmarshal elem item]: what [json.Unmarshal(elem, &item)] leaves in
      [item], and the error it returns. *)

Section Decoder.
Context {RawValue : Type}.
Variable object_entries : RawValue -> list (string * RawValue).
Variable object_err : RawValue -> option error.
Variable array_elems : RawValue -> list RawValue.
Variable Unmarshal : RawValue -> DayItem -> DayItem * option error.

(** [jsonparser.ObjectEach(data, callback)]: the callback runs on every
    entry in turn; its first error stops the walk and is returned. *)
Fixpoint ObjectEach_walk {S} (callback : string -> RawValue -> S -> S * option error)
    (entries : list (string * RawValue)) (final : option error) (st : S)
    : S * option error :=
  match entries with
  | [] => (st, final)
  | (key, value) :: rest =>
      match callback key value st with
      | (st', Some e) => (st', Some e)
      | (st', None) => ObjectEach_walk callback rest final st'
      end
  end.

Definition ObjectEach {S} (data : RawValue)
    (callback : string -> RawValue -> S -> S * option error) (st : S)
    : S * option error :=
  ObjectEach_walk callback (object_entries data) (object_err data) st.

(** [jsonparser.ArrayEach(value, cb)], its own error dropped. *)
Definition ArrayEach {S} (value : RawValue) (cb : RawValue -> S -> S) (st : S) : S :=
  fold_left (fun st arrValue => cb arrValue st) (array_elems value) st.

(** Lines 213-217: a fresh [dayItem], decoded into; an error is logged and
    the item is appended all the same. *)
Definition arrayCallback (arrValue : RawValue) (countryItems : list DayItem)
    : list DayItem :=
  let dayItem := zeroDayItem in
  let '(dayItem, _) := Unmarshal arrValue dayItem in
  countryItems ++ [dayItem].

(** Lines 210-220: the callback of [ObjectEach]; it always returns [nil]. *)
Definition objectCallback (key : string) (value : RawValue) (all : Dataset)
    : Dataset * option error :=
  let country := key in
  let countryItems := ArrayEach value arrayCallback [] in
  (<[country := countryItems]> all, None).

(** Line 209: the walk over the top-level object, filling [AllValues]. *)
Definition decode (arrayData : RawValue) (all : Dataset) : Dataset * option error :=
  ObjectEach arrayData objectCallback all.
End Decoder.

(** *** encoding/json on a DayItem

    The slice handed to [json.Unmarshal] read as the JSON value it spells.
    Bytes that spell no JSON value are of two kinds: those jsonparser still
    delimits as a value (a bracketed block as [{x}], a bare word between
    quotes that were stripped), and those with which no value starts (as
    [xx]), at which jsonparser gives up. *)
#[warnings="-register-all"] Inductive JValue : Type :=
| JNull
| JBool (b : bool)
| JNumber (n : Z)              (* an integer literal *)
| JFraction                    (* a number literal with a fraction or exponent *)
| JString (s : string)
| JArray (elems : list JValue)
| JObject (members : list (string * JValue))
| JInvalid                     (* delimited bytes that are not a JSON value *)
| JGarbage.                    (* bytes with which no value starts *)

(** Modelled from the spec: the error of [jsonparser.ObjectEach], a function
    of github.com/buger/jsonparser, whose code is not among the sources.
    The specification says of decoding that it "fails with DecodeError only
    if the top-level structure is not a JSON object" and that "decoding a
    top-level JSON array (not object) fails with DecodeError". *)
Definition json_object_err (data : JValue) : option error :=
  match data with
  | JObject _ => None
  | _ => Some "DecodeError"
  end.

(** Modelled from the spec: the entries [jsonparser.ObjectEach] walks over,
    "a JSON object whose top-level keys are country names and whose values
    are arrays of daily objects", "one CountrySeries per top-level key". *)
Definition json_object_entries (data : JValue) : list (string * JValue) :=
  match data with
  | JObject members => members
  | _ => []
  end.

Definition is_object (data : JValue) : bool :=
  match data with
  | JObject _ => true
  | _ => false
  end.

(** The two kinds of error of the package, by the name of their type. *)
Definition UnmarshalTypeError : error := "json.UnmarshalTypeError".
Definition SyntaxError : error := "json.SyntaxError".

(** The package matches the name of a member with the tag of a field
    exactly or, failing that, up to case: letters A-Z count as a-z, and so
    do the two letters outside ASCII that fold to one of them, the long s
    (bytes 197 191 in UTF-8) and the Kelvin sign (bytes 226 132 170).  The
    four tags are in lower case, so a name matches a tag when its fold is
    the tag. *)
Definition ascii_lower (c : ascii) : ascii :=
  let n := nat_of_ascii c in
  if ((65 <=? n) && (n <=? 90))%nat then ascii_of_nat (n + 32) else c.

Fixpoint fold_name (name : string) : string :=
  match name with
  | String "197" (String "191" rest) => String "s" (fold_name rest)
  | String "226" (String "132" (String "170" rest)) => String "k" (fold_name rest)
  | String c rest => String (ascii_lower c) (fold_name rest)
  | EmptyString => EmptyString
  end.

(** [json.Unmarshal] of one member of an object into the field of
    [DayItem] tagged with the member's name, after the documentation of
    the package: [null] leaves the field as it is; a value that does not
    fit the field's type, or a number that overflows it, leaves the field as
    it is and is reported; members with other names are skipped. *)
Definition unmarshal_member (name : string) (v : JValue) (d : DayItem)
    : DayItem * option error :=
  let name := fold_name name in
  let set_int (set : Z -> DayItem) : DayItem * option error :=
    match v with
    | JNull => (d, None)
    | JNumber n =>
        if (Int.min_int <=? n) && (n <=? Int.max_int) then (set n, None)
        else (d, Some UnmarshalTypeError)
    | _ => (d, Some UnmarshalTypeError)
    end in
  if String.eqb name "date" then
    match v with
    | JNull => (d, None)
    | JString s => (mkDayItem s (Confirmed d) (Deaths d) (Recovered d), None)
    | _ => (d, Some UnmarshalTypeError)
    end
  else if String.eqb name "confirmed" then
    set_int (fun n => mkDayItem (Date d) n (Deaths d) (Recovered d))
  else if String.eqb name "deaths" then
    set_int (fun n => mkDayItem (Date d) (Confirmed d) n (Recovered d))
  else if String.eqb name "recovered" then
    set_int (fun n => mkDayItem (Date d) (Confirmed d) (Deaths d) n)
  else (d, None).

(** The members are decoded in order; the decoder goes on after a value that
    does not fit and returns the earliest such error at the end. *)
Fixpoint unmarshal_members (members : list (string * JValue)) (d : DayItem)
    (first : option error) : DayItem * option error :=
  match members with
  | [] => (d, first)
  | (name, v) :: rest =>
      let '(d', e) := unmarshal_member name v d in
      unmarshal_members rest d' (match first with Some _ => first | None => e end)
  end.

(** The package checks the whole input before it decodes any of it. *)
Fixpoint valid (v : JValue) : bool :=
  match v with
  | JInvalid | JGarbage => false
  | JArray elems => forallb valid elems
  | JObject members => forallb (fun '(_, v) => valid v) members
  | _ => true
  end.

(** [json.Unmarshal(elem, &dayItem)]: input that is not valid JSON, at any
    depth, and values that are not objects are refused with [dayItem]
    untouched. *)
Definition json_Unmarshal (elem : JValue) (d : DayItem) : DayItem * option error :=
  if valid elem then
    match elem with
    | JObject members => unmarshal_members members d None
    | JNull => (d, None)
    | _ => (d, Some UnmarshalTypeError)
    end
  else (d, Some SyntaxError).

(** What [jsonparser.ArrayEach] hands to its callback, after the code of
    the library (version f7e751efca13 of go.mod), which is not among the
    sources.  It does not check that the slice is an array: it skips the
    first byte and takes value after value, each followed by a comma or the
    closing bracket.  It stops, with an error that line 212 drops, at the
    first place where no value starts; the elements after it are never
    seen.  A string is handed over without its quotes, so what [Unmarshal]
    gets of it is a bare word ([JInvalid]; a string that itself spells a
    JSON value is decoded as that value, which writes no field either). *)
Definition handed_over (elem : JValue) : JValue :=
  match elem with
  | JString _ => JInvalid
  | _ => elem
  end.

Fixpoint delimited (elems : list JValue) : list JValue :=
  match elems with
  | [] => []
  | JGarbage :: _ => []
  | elem :: rest => handed_over elem :: delimited rest
  end.

(** On an object with members the value it finds past the first byte is the
    name of the first member, handed over without its quotes, and the colon
    that follows ends the walk: the callback runs once, on a bare word.  On
    an empty object there is no value to find.  For a value that is neither
    an array nor an object, what follows the first byte depends on the
    spelling, which [JValue] does not keep; the source of the data has none
    such, and no run below does. *)
Definition json_array_elems (value : JValue) : list JValue :=
  match value with
  | JArray elems => delimited elems
  | JObject (_ :: _) => [JInvalid]
  | _ => []
  end.

(** ** sort.Interface (lines 39-41) *)

Class SortInterface (T : Type) : Type := {
  Len : T -> Z;
  Swap : T -> Z -> Z -> outcome T;
  Less : T -> Z -> Z -> outcome bool
}.

(** [p[i], p[j] = p[j], p[i]]. *)
Definition swap_elems {A} (p : list A) (i j : Z) : outcome (list A) :=
  pj ← at_index p j;
  pi ← at_index p i;
  Returned (<[Z.to_nat j := pi]> (<[Z.to_nat i := pj]> p)).

#[global] Instance PairList_sort : SortInterface PairList := {
  Len p := len p;
  Swap p i j := swap_elems p i j;
  Less p i j := pi ← at_index p i; pj ← at_index p j; Returned (Value pi >? Value pj)
}.

(** [sort.StringSlice], through which [sort.Strings] sorts: [Less] is
    Go's [<] on strings, the order of the bytes. *)
Definition StringSlice : Type := list string.

#[global] Instance StringSlice_sort : SortInterface StringSlice := {
  Len p := len p;
  Swap p i j := swap_elems p i j;
  Less p i j := pi ← at_index p i; pj ← at_index p j; Returned (String.ltb pi pj)
}.

(** [sort.Sort(data)] reaches [data] through the three methods only: all it
    does to [data] is a sequence of calls of [Swap].  The sequence is the
    library's choice ([swaps]); the run of [sort.Sort] is the run of these
    calls. *)
Definition sort_Sort {T} `{SortInterface T} (data : T) (swaps : list (Z * Z)) : outcome T :=
  foldM (fun d ij => Swap d (fst ij) (snd ij)) swaps data.

(** What [sort.Sort] promises of the data it leaves, in the terms in which
    [sort.IsSorted] tests it
    ([for i := n - 1; i > 0; i-- { if data.Less(i, i-1) { return false } }]):
    no element is [Less] than the one before it. *)
Definition sorted_by_Less {T} `{SortInterface T} (data : T) : Prop :=
  forall i, 0 < i -> i < Len data -> Less data i (i - 1) = Returned false.

(** The call of [sort.Sort] on [data] with these calls of [Swap] keeps what
    the library promises: it comes back, and [data] is sorted. *)
Definition sort_Sort_contract {T} `{SortInterface T} (data : T) (swaps : list (Z * Z))
    : Prop :=
  exists sorted, sort_Sort data swaps = Returned sorted /\ sorted_by_Less sorted.

(** *** The sort of the library

    Modelled from the spec: [sort.Sort] and [sort.Strings], functions of Go's
    package sort, whose code is not among the sources.  The specification
    has the name index built by "sort all keys ascending, case-sensitive
    ordinal compare" and the rank index by "sort descending by count", with
    "an unstable in-place sort" whose order of ties is left open.  The
    model is an insertion sort over the whole slice, written as the
    package writes its own [insertionSort]:
    [for i := 1; i < n; i++ { for j := i; j > 0 && data.Less(j, j-1); j-- { data.Swap(j, j-1) } }].
    (On a slice of six elements or fewer the [Sort] of Go 1.13, the version
    of go.mod, runs this very loop; on a longer one it runs passes of its
    own before it.)  It reaches the data through [Len], [Less] and [Swap]
    only, so what it sorts by is the [Less] of the slice's type.  Each
    function returns the data it leaves and the calls of [Swap] it has
    made; the fuel is the number of iterations the loop can make, and never
    runs out before the loop ends. *)

(** The inner loop, entered with [j]; [fuel] bounds its iterations. *)
Fixpoint insert_down {T} `{SortInterface T} (fuel : nat) (j : Z) (data : T)
    : outcome (T * list (Z * Z)) :=
  match fuel with
  | O => Returned (data, [])
  | Datatypes.S fuel' =>
      if 0 <? j then
        less ← Less data j (j - 1);
        if (less : bool) then
          data' ← Swap data j (j - 1);
          rest ← insert_down fuel' (j - 1) data';
          Returned (fst rest, (j, j - 1) :: snd rest)
        else Returned (data, [])
      else Returned (data, [])
  end.

(** The outer loop, entered with [i], for a slice of length [n]. *)
Fixpoint insertionSort_from {T} `{SortInterface T} (fuel : nat) (n i : Z) (data : T)
    : outcome (T * list (Z * Z)) :=
  match fuel with
  | O => Returned (data, [])
  | Datatypes.S fuel' =>
      if i <? n then
        pass ← insert_down (Z.to_nat i) i data;
        rest ← insertionSort_from fuel' n (i + 1) (fst pass);
        Returned (fst rest, snd pass ++ snd rest)
      else Returned (data, [])
  end.

Definition insertionSort {T} `{SortInterface T} (data : T) : outcome (T * list (Z * Z)) :=
  let n := Len data in
  insertionSort_from (Z.to_nat n) n 1 data.

(** The calls of [Swap] by which the modelled [sort.Sort] sorts [data]. *)
Definition sort_Sort_swaps {T} `{SortInterface T} (data : T) : list (Z * Z) :=
  match insertionSort data with
  | Returned sorted => snd sorted
  | Panic => []
  end.

(** A slice of any element type sorted by a comparison of its elements, as
    [PairList] and [sort.StringSlice] are. *)
Definition list_sort {A} (less : A -> A -> bool) : SortInterface (list A) := {|
  Len p := len p;
  Swap p i j := swap_elems p i j;
  Less p i j := pi ← at_index p i; pj ← at_index p j; Returned (less pi pj)
|}.

(** The pair of neighbours at [k - 1] and [k] is in order. *)
Definition pair_ok {A} (less : A -> A -> bool) (l : list A) (k : nat) : Prop :=
  forall x y, l !! (k - 1)%nat = Some x -> l !! k = Some y -> less y x = false.

(** ** The indexes (FetchData, lines 222-230) *)

(** Lines 222-225. *)
Definition FetchData_names (order : list (string * list DayItem))
    (swaps : list (Z * Z)) (names : list string) : outcome (list string) :=
  let names := fold_left (fun names kv => names ++ [fst kv]) order names in
  sort_Sort (names : StringSlice) swaps.

(** Line 228: the body of the loop. *)
Definition FetchData_ranks_step (ranks : PairList) (cv : string * list DayItem)
    : outcome PairList :=
  let '(c, v) := cv in
  latest ← at_index v (len v - 1);
  Returned (ranks ++ [mkPair c (Confirmed latest)]).

(** Lines 227-230. *)
Definition FetchData_ranks (order : list (string * list DayItem))
    (swaps : list (Z * Z)) (ranks : PairList) : outcome PairList :=
  ranks ← foldM FetchData_ranks_step order ranks;
  sort_Sort ranks swaps.

(** The choices the run-time and the library make during one call of
    [FetchData]: the two iteration orders over [AllValues] and the calls of
    [Swap] of the two sorts. *)
Record Choices : Type := mkChoices {
  names_order : list (string * list DayItem);
  names_swaps : list (Z * Z);
  ranks_order : list (string * list DayItem);
  ranks_swaps : list (Z * Z)
}.

(** [FetchData(false)] from line 209 on, with the bytes already read.  The
    error of [ObjectEach] is returned at the very end, after the indexes
    have been built from whatever was decoded. *)
Definition FetchData {RawValue : Type}
    (object_entries : RawValue -> list (string * RawValue))
    (object_err : RawValue -> option error)
    (array_elems : RawValue -> list RawValue)
    (Unmarshal : RawValue -> DayItem -> DayItem * option error)
    (arrayData : RawValue) (ch : Choices) (g : Globals)
    : outcome (Globals * option error) :=
  let '(all, err) :=
    decode object_entries object_err array_elems Unmarshal arrayData (AllValues g) in
  names ← FetchData_names (names_order ch) (names_swaps ch) (NameSortedCountries g);
  ranks ← FetchData_ranks (ranks_order ch) (ranks_swaps ch) (ValueSortedCountries g);
  Returned (mkGlobals all names ranks, err).

(** ** PrintSummary (lines 238-244) *)

(** Lines 240-243: the body of the loop. *)
Definition PrintSummary_step (acc : Z * Z * Z) (kv : string * list DayItem)
    : outcome (Z * Z * Z) :=
  let '(confirmed, deaths, recovered) := acc in
  let items := snd kv in
  lItem ← at_index items (len items - 1);
  Returned (Int.add confirmed (Confirmed lItem),
            Int.add deaths (Deaths lItem),
            Int.add recovered (Recovered lItem)).

(** The three totals printed. *)
Definition PrintSummary_totals (order : list (string * list DayItem))
    : outcome (Z * Z * Z) :=
  foldM PrintSummary_step order (0, 0, 0).

(** ** PrintCountry (lines 266-293) *)

(** A row of the table: country, the three latest counts, the three
    day-over-day differences. *)
Record Row : Type := mkRow {
  row_country : string;
  row_confirmed : Z;
  row_deaths : Z;
  row_recovered : Z;
  row_newConfirmed : Z;
  row_newDeaths : Z;
  row_newRecovered : Z
}.

(** Lines 271-278 and, with the same text, lines 282-289: the row of one
    country from the last two records of its series. *)
Definition country_row (country : string) (countryItem : list DayItem) : outcome Row :=
  lItem ← at_index countryItem (len countryItem - 1);
  mlItem ← at_index countryItem (len countryItem - 2);
  let newConfirmed := Int.sub (Confirmed lItem) (Confirmed mlItem) in
  let newDeaths := Int.sub (Deaths lItem) (Deaths mlItem) in
  let newRecovered := Int.sub (Recovered lItem) (Recovered mlItem) in
  Returned (mkRow country (Confirmed lItem) (Deaths lItem) (Recovered lItem)
                  newConfirmed newDeaths newRecovered).

(** Lines 267-279: the rows of the countries of [ValueSortedCountries],
    until [idx == max].  A key that is missing from the map reads as the
    nil slice. *)
Fixpoint all_rows (all : Dataset) (max : Z) (idx : Z) (pairs : PairList)
    (rows : list Row) : outcome (list Row) :=
  match pairs with
  | [] => Returned rows
  | p :: rest =>
      if idx =? max then Returned rows
      else
        row ← country_row (Key p) (default [] (all !! Key p));
        all_rows all max (idx + 1) rest (rows ++ [row])
  end.

Definition country_not_found : error := "country not found in dataset".

(** The body of [PrintCountry] after [FetchData]: the rows appended to the
    table, or the error returned. *)
Definition PrintCountry_rows (g : Globals) (country : string) (max : Z)
    : outcome (result (list Row)) :=
  if String.eqb country "all" then
    rows ← all_rows (AllValues g) max 0 (ValueSortedCountries g) [];
    Returned (Ok rows)
  else
    match AllValues g !! country with
    | Some countryItem =>
        row ← country_row country countryItem;
        Returned (Ok [row])
    | None => Returned (Err country_not_found)
    end.

(** ** The chart series (lines 337-386 and 455-501) *)

(** The loop shared by all four branches,
    [j := 0; for i := len(countryItem)-1; i >= 0; i-- { j++; body; if j == max { break } }]:
    [n] is [i + 1], the number of indexes still to visit.  ([j] counts the
    records visited and stays below [len(countryItem)], so [j++] cannot
    wrap around.) *)
Fixpoint windowLoop {S} (body : DayItem -> S -> S) (max : Z)
    (countryItem : list DayItem) (n : nat) (j : Z) (st : S) : S :=
  match n with
  | O => st
  | Datatypes.S i =>
      let j := j + 1 in
      match countryItem !! i with
      | None => st                (* not reached: [i < len(countryItem)] *)
      | Some item =>
          let st := body item st in
          if j =? max then st else windowLoop body max countryItem i j st
      end
  end.

(** [m[key]] on a [map[string]float64]: a missing key reads as 0. *)
Definition get (m : gmap string float) (key : string) : float :=
  default Float64.zero (m !! key).

(** The loops [for i, j := 0, len(s)-1; i < j; i, j = i+1, j-1] of
    [ReverseStrings] and [ReverseFloats] (lines 538-550); [fuel] bounds
    the number of iterations. *)
Fixpoint reverse_loop {A} (fuel : nat) (i j : Z) (s : list A) : outcome (list A) :=
  match fuel with
  | O => Returned s
  | Datatypes.S fuel' =>
      if i <? j then
        s' ← swap_elems s i j;
        reverse_loop fuel' (i + 1) (j - 1) s'
      else Returned s
  end.

Definition ReverseStrings (s : list string) : outcome (list string) :=
  reverse_loop (length s) 0 (len s - 1) s.

Definition ReverseFloats (s : list float) : outcome (list float) :=
  reverse_loop (length s) 0 (len s - 1) s.

Inductive ChartKind : Type := BarChart | LineChart.

(** The accumulators of the "all" branch. *)
Record Accumulators : Type := mkAcc {
  labels : list string;
  cMap : gmap string float;
  dMap : gmap string float;
  rMap : gmap string float
}.

(** Lines 348-353 and 465-470.  The two functions differ in the last
    assignment: line 353 (bar chart) reads [dMap], line 470 (line chart)
    reads [rMap]. *)
Definition aggregate_body (kind : ChartKind) (index : Z) (item : DayItem)
    (acc : Accumulators) : Accumulators :=
  let labels := if index =? 0 then labels acc ++ [Date item] else labels acc in
  let cMap := <[Date item :=
                 Float64.add (get (cMap acc) (Date item)) (Float64.of_int (Confirmed item))]>
              (cMap acc) in
  let dMap := <[Date item :=
                 Float64.add (get (dMap acc) (Date item)) (Float64.of_int (Deaths item))]>
              (dMap acc) in
  let rMap := <[Date item :=
                 Float64.add (get (match kind with
                                   | BarChart => dMap
                                   | LineChart => rMap acc
                                   end) (Date item))
                             (Float64.of_int (Recovered item))]>
              (rMap acc) in
  mkAcc labels cMap dMap rMap.

(** Lines 343-359 and 460-476: the loop over the countries. *)
Fixpoint aggregate_countries (kind : ChartKind) (max : Z) (index : Z)
    (order : list (string * list DayItem)) (acc : Accumulators) : Accumulators :=
  match order with
  | [] => acc
  | (_, countryItem) :: rest =>
      let acc := windowLoop (aggregate_body kind index) max countryItem
                            (length countryItem) 0 acc in
      aggregate_countries kind max (index + 1) rest acc
  end.

(** What a chart is given to draw. *)
Record Series : Type := mkSeries {
  Labels : list string;
  cData : list float;
  dData : list float;
  rData : list float
}.

(** Lines 370-373: the body of the loop over one country. *)
Definition country_body (item : DayItem) (sr : Series) : Series :=
  mkSeries (Labels sr ++ [Date item])
           (cData sr ++ [Float64.of_int (Confirmed item)])
           (dData sr ++ [Float64.of_int (Deaths item)])
           (rData sr ++ [Float64.of_int (Recovered item)]).

(** Lines 337-386 of [DrawCountryBarChart]: the labels and the three data
    series handed to the bar charts, or the error returned. *)
Definition DrawCountryBarChart_series (all : Dataset)
    (order : list (string * list DayItem)) (country : string) (max : Z)
    : outcome (result Series) :=
  let collected :=
    if String.eqb country "all" then
      let acc := aggregate_countries BarChart max 0 order (mkAcc [] ∅ ∅ ∅) in
      Ok (mkSeries (labels acc)
                   (map (get (cMap acc)) (labels acc))
                   (map (get (dMap acc)) (labels acc))
                   (map (get (rMap acc)) (labels acc)))
    else
      match all !! country with
      | Some countryItem =>
          Ok (windowLoop country_body max countryItem (length countryItem) 0
                         (mkSeries [] [] [] []))
      | None => Err country_not_found
      end in
  match collected with
  | Err e => Returned (Err e)
  | Ok sr =>
      labels ← ReverseStrings (Labels sr);
      cData ← ReverseFloats (cData sr);
      dData ← ReverseFloats (dData sr);
      rData ← ReverseFloats (rData sr);
      Returned (Ok (mkSeries labels cData dData rData))
  end.

(** Lines 487-489: the line chart keeps no labels. *)
Definition plot_body (item : DayItem) (sr : Series) : Series :=
  mkSeries (Labels sr)
           (cData sr ++ [Float64.of_int (Confirmed item)])
           (dData sr ++ [Float64.of_int (Deaths item)])
           (rData sr ++ [Float64.of_int (Recovered item)]).

(** Lines 455-501 of [DrawCountryLineChart]: [plotChart.Data[0]],
    [plotChart.Data[1]] and [plotChart.Data[2]], or the error returned. *)
Definition DrawCountryLineChart_series (all : Dataset)
    (order : list (string * list DayItem)) (country : string) (max : Z)
    : outcome (result (list float * list float * list float)) :=
  let collected :=
    if String.eqb country "all" then
      let acc := aggregate_countries LineChart max 0 order (mkAcc [] ∅ ∅ ∅) in
      Ok (mkSeries []
                   (map (get (cMap acc)) (labels acc))
                   (map (get (dMap acc)) (labels acc))
                   (map (get (rMap acc)) (labels acc)))
    else
      match all !! country with
      | Some countryItem =>
          Ok (windowLoop plot_body max countryItem (length countryItem) 0
                         (mkSeries [] [] [] []))
      | None => Err country_not_found
      end in
  match collected with
  | Err e => Returned (Err e)
  | Ok sr =>
      data0 ← ReverseFloats (cData sr);
      data1 ← ReverseFloats (dData sr);
      data2 ← ReverseFloats (rData sr);
      Returned (Ok (data0, data1, data2))
  end.

(** ** The views of the specification *)

(** The records of a series that take part in a window of [max] days, oldest
    first: the last [max] of them, all of them when [max] is not positive
    (the test [j == max] then never holds). *)
Definition window (max : Z) (s : list DayItem) : list DayItem :=
  if 1 <=? max then drop (length s - Z.to_nat max)%nat s else s.

(** The last [n] records of a series, oldest first. *)
Definition last_records (n : nat) (s : list DayItem) : list DayItem :=
  drop (length s - n)%nat s.

(** The records all countries contribute to the aligned view, in the order
    the loops visit them: country after country, newest record first. *)
Definition visited (max : Z) (order : list (string * list DayItem)) : list DayItem :=
  concat (map (fun kv => rev (window max (snd kv))) order).

(** [float64(r.field)]. *)
Definition float_of (field : DayItem -> Z) (r : DayItem) : float :=
  Float64.of_int (field r).

(** The float64 sum of one field over the records of one date among [rs],
    added up in the order of [rs]. *)
Definition field_total (field : DayItem -> Z) (rs : list DayItem) (date : string)
    : float :=
  Float64.sum (map (float_of field) (filter (fun r => Date r = date) rs)).

(** The same over the records the aligned view visits. *)
Definition date_total (field : DayItem -> Z) (max : Z)
    (order : list (string * list DayItem)) (date : string) : float :=
  field_total field (visited max order) date.

(** A map of float64 holds, for every date, the total of [field] over [rs]. *)
Definition totals_of (field : DayItem -> Z) (m : gmap string float)
    (rs : list DayItem) : Prop :=
  forall date, get m date = field_total field rs date.

(** The accumulators hold the totals over [rs]; the recovered map is
    looked at for the line chart only. *)
Definition aligned (kind : ChartKind) (acc : Accumulators) (rs : list DayItem) : Prop :=
  totals_of Confirmed (cMap acc) rs /\
  totals_of Deaths (dMap acc) rs /\
  (kind = LineChart -> totals_of Recovered (rMap acc) rs).

(** What line 353 leaves in the recovered map of the bar chart for a date,
    [rs] being the records visited: the deaths total of the date plus the
    recovered count of the record of that date visited last. *)
Definition bar_recovered (rs : list DayItem) (date : string) : float :=
  match last (filter (fun r => Date r = date) rs) with
  | None => Float64.zero
  | Some r => Float64.add (field_total Deaths rs date) (float_of Recovered r)
  end.

(** Telling two lists of one float each apart. *)
Definition same_single (x : float) (l : list float) : bool :=
  match l with
  | [v] => PrimFloat.eqb v x
  | _ => false
  end.

(** The number of records the window loop still visits from index [n - 1]
    down, [j] of them having been visited. *)
Definition visits (max j : Z) (n : nat) : nat :=
  if j <? max then Nat.min n (Z.to_nat (max - j)) else n.

(** The window of the country the iteration starts with. *)
Definition first_window (max : Z) (order : list (string * list DayItem)) : list DayItem :=
  match order with
  | [] => []
  | (_, countryItem) :: _ => window max countryItem
  end.

(** A country paired with the confirmed count of the last record of its
    series. *)
Definition latest_pair (cv : string * list DayItem) : option Pair :=
  (fun r => mkPair (fst cv) (Confirmed r)) <$> last (snd cv).

Definition latest_pairs (order : list (string * list DayItem)) : PairList :=
  omap latest_pair order.

(** The series [FetchData] stores for a country whose value is [value]: one
    record per element of the array, each what [Unmarshal] left in a zero
    [DayItem]. *)
Definition decoded_series {RawValue : Type} (array_elems : RawValue -> list RawValue)
    (Unmarshal : RawValue -> DayItem -> DayItem * option error) (value : RawValue)
    : list DayItem :=
  map (fun elem => fst (Unmarshal elem zeroDayItem)) (array_elems value).

(** The value of the last entry with the key [country]. *)
Definition last_value {RawValue : Type} (country : string)
    (entries : list (string * RawValue)) : option RawValue :=
  snd <$> last (filter (fun kv => fst kv = country) entries).

(** Go's [<] on strings, and the order of the rank index. *)
Definition string_lt (x y : string) : Prop := String.ltb x y = true.

Definition count_ge (p q : Pair) : Prop := Value p >= Value q.

(** The sum of a list of integers, exact. *)
Definition Zsum (l : list Z) : Z := fold_right Z.add 0 l.

(** The latest record of every country of a dataset. *)
Definition latest_records (ds : Dataset) : list DayItem :=
  omap (fun kv => last (snd kv)) (map_to_list ds).

(** ** The commands from their first line

    Each of the four commands starts with
    [if err := FetchData(false); err != nil { return err }] (lines 235, 258,
    300 and 438) and goes on to its own work on the package-level
    variables that [FetchData] has filled. *)

Section Commands.
Context {RawValue : Type}.
Variable object_entries : RawValue -> list (string * RawValue).
Variable object_err : RawValue -> option error.
Variable array_elems : RawValue -> list RawValue.
Variable Unmarshal : RawValue -> DayItem -> DayItem * option error.

(** [PrintSummary] (lines 234-255): the globals it leaves, and the totals
    printed or the error returned.  [order] is the order of the loop of
    line 239 over [AllValues]. *)
Definition PrintSummary (arrayData : RawValue) (ch : Choices)
    (order : list (string * list DayItem)) (g : Globals)
    : outcome (Globals * result (Z * Z * Z)) :=
  fetched ← FetchData object_entries object_err array_elems Unmarshal arrayData ch g;
  match snd fetched with
  | Some err => Returned (fst fetched, Err err)
  | None =>
      totals ← PrintSummary_totals order;
      Returned (fst fetched, Ok totals)
  end.

(** [PrintCountry] (lines 257-297). *)
Definition PrintCountry (arrayData : RawValue) (ch : Choices) (g : Globals)
    (country : string) (max : Z) : outcome (Globals * result (list Row)) :=
  fetched ← FetchData object_entries object_err array_elems Unmarshal arrayData ch g;
  match snd fetched with
  | Some err => Returned (fst fetched, Err err)
  | None =>
      rows ← PrintCountry_rows (fst fetched) country max;
      Returned (fst fetched, rows)
  end.

(** [DrawCountryBarChart] (lines 299-386), up to the series handed to the
    widgets.  [order] is the order of the loop of line 344. *)
Definition DrawCountryBarChart (arrayData : RawValue) (ch : Choices)
    (order : list (string * list DayItem)) (g : Globals)
    (country : string) (max : Z) : outcome (Globals * result Series) :=
  fetched ← FetchData object_entries object_err array_elems Unmarshal arrayData ch g;
  match snd fetched with
  | Some err => Returned (fst fetched, Err err)
  | None =>
      series ← DrawCountryBarChart_series (AllValues (fst fetched)) order country max;
      Returned (fst fetched, series)
  end.

(** [DrawCountryLineChart] (lines 437-501), up to [plotChart.Data]. *)
Definition DrawCountryLineChart (arrayData : RawValue) (ch : Choices)
    (order : list (string * list DayItem)) (g : Globals)
    (country : string) (max : Z)
    : outcome (Globals * result (list float * list float * list float)) :=
  fetched ← FetchData object_entries object_err array_elems Unmarshal arrayData ch g;
  match snd fetched with
  | Some err => Returned (fst fetched, Err err)
  | None =>
      data ← DrawCountryLineChart_series (AllValues (fst fetched)) order country max;
      Returned (fst fetched, data)
  end.
End Commands.

(** ** Further views *)

(** The number of rows the "all" table shows for [max] out of [n] ranked
    countries: the loop of line 267 stops at [idx == max], which a negative
    [max] never meets. *)
Definition shown (max : Z) (n : nat) : nat :=
  if max <? 0 then n else Nat.min (Z.to_nat max) n.

(** The same for the loop entered with the index [idx]. *)
Definition remaining (max idx : Z) (n : nat) : nat :=
  if max <? idx then n else Nat.min (Z.to_nat (max - idx)) n.

(** The row of a ranked country, when its series has two records or more. *)
Definition delta_row (all : Dataset) (p : Pair) : option Row :=
  match rev (default [] (all !! Key p)) with
  | l :: ml :: _ =>
      Some (mkRow (Key p) (Confirmed l) (Deaths l) (Recovered l)
                  (Int.sub (Confirmed l) (Confirmed ml))
                  (Int.sub (Deaths l) (Deaths ml))
                  (Int.sub (Recovered l) (Recovered ml)))
  | _ => None
  end.

(** The three data series of a chart, without the labels. *)
Definition series_data (sr : Series) : list float * list float * list float :=
  (cData sr, dData sr, rData sr).

(** The float64 sum, over the countries in iteration order, of one field of
    the record at position [i] of each country's window. *)
Definition column_total (field : DayItem -> Z) (max : Z)
    (order : list (string * list DayItem)) (i : nat) : float :=
  Float64.sum (omap (fun kv => float_of field <$> window max (snd kv) !! i) order).

(** All countries have the same dates in their windows, none of them
    twice. *)
Definition same_dates (max : Z) (order : list (string * list DayItem))
    (dates : list string) : Prop :=
  NoDup dates /\ Forall (fun kv => map Date (window max (snd kv)) = dates) order.

(** ** Sample datasets *)

(** The dataset of the specification's test of the summary. *)
Definition summary_dataset : Dataset :=
  <["A" := [mkDayItem "2020-1-22" 5 1 2]]>
    (<["B" := [mkDayItem "2020-1-22" 10 3 4]]> ∅).

(** Its two entries with B before A, an order in which the names are not
    sorted. *)
Definition reversed_order : list (string * list DayItem) :=
  [("B", [mkDayItem "2020-1-22" 10 3 4]); ("A", [mkDayItem "2020-1-22" 5 1 2])].

(** The dataset of the specification's test of the aligned view: two
    countries with one record each, of the same date. *)
Definition country_A : string * list DayItem := ("A", [mkDayItem "d1" 1 1 1]).
Definition country_B : string * list DayItem := ("B", [mkDayItem "d1" 2 2 5]).

Definition recovered_dataset : Dataset :=
  <[fst country_A := snd country_A]> (<[fst country_B := snd country_B]> ∅).

(** Two countries whose latest records are of different dates. *)
Definition country_C : string * list DayItem := ("C", [mkDayItem "2020-3-1" 7 1 0]).
Definition country_D : string * list DayItem := ("D", [mkDayItem "2020-3-2" 9 2 1]).

Definition two_dates_dataset : Dataset :=
  <[fst country_C := snd country_C]> (<[fst country_D := snd country_D]> ∅).

(** A country with a single record, one with three. *)
Definition history_dataset : Dataset :=
  <["Short" := [mkDayItem "2020-1-22" 4 0 0]]>
    (<["Long" := [mkDayItem "2020-1-22" 1 0 0;
                  mkDayItem "2020-1-23" 3 1 0;
                  mkDayItem "2020-1-24" 8 1 2]]> ∅).

(** An array of one element whose [confirmed] is a string. *)
Definition misfit_array : JValue :=
  JArray [JObject [("date", JString "2020-1-22"); ("confirmed", JString "x")]].

(** An array whose second element is no value: two records, [xx] between
    them. *)
Definition cut_array : JValue :=
  JArray [JObject [("date", JString "2020-1-22"); ("confirmed", JNumber 1)];
          JGarbage;
          JObject [("date", JString "2020-1-23"); ("confirmed", JNumber 2)]].

(** One element of a country's array, as the source of the data writes it. *)
Definition json_record (date : string) (confirmed deaths recovered : Z) : JValue :=
  JObject [("date", JString date); ("confirmed", JNumber confirmed);
           ("deaths", JNumber deaths); ("recovered", JNumber recovered)].

(** An input with two countries of two records each. *)
Definition sample_json : JValue :=
  JObject [("A", JArray [json_record "2020-1-22" 1 0 0; json_record "2020-1-23" 5 1 2]);
           ("B", JArray [json_record "2020-1-22" 4 1 1; json_record "2020-1-23" 10 3 4])].

Definition sample_decoded : Dataset :=
  fst (decode json_object_entries json_object_err json_array_elems json_Unmarshal
              sample_json ∅).

(** The choices of one run on it, and the globals the run leaves. *)
Definition sample_choices : Choices :=
  mkChoices (map_to_list sample_decoded) [] (map_to_list sample_decoded) [(0, 1)].

Definition sample_globals : Globals :=
  mkGlobals sample_decoded ["A"; "B"] [mkPair "B" 10; mkPair "A" 5].

(** An input in which the array of a country is empty. *)
Definition empty_array_json : JValue := JObject [("A", JArray [])].

(** * Properties *)

(** ** Integers *)

Lemma wrap_in_range (z : Z) : Int.in_range z -> Int.wrap z = z.
Proof.
  unfold Int.in_range, Int.min_int, Int.max_int, Int.wrap. intros Hz.
  rewrite Z.mod_small; lia.
Qed.

Lemma wrap_add_l (a b : Z) : Int.wrap (Int.wrap a + b) = Int.wrap (a + b).
Proof.
  unfold Int.wrap. f_equal.
  replace (((a + 2 ^ 63) mod 2 ^ 64 - 2 ^ 63 + b + 2 ^ 63))
    with ((a + 2 ^ 63) mod 2 ^ 64 + b) by lia.
  rewrite Zplus_mod_idemp_l. f_equal. lia.
Qed.

Lemma fold_add_wrap (l : list Z) (a : Z) :
  fold_left Int.add l (Int.wrap a) = Int.wrap (a + Zsum l).
Proof.
  revert a. induction l as [|x l IH]; intros a; simpl.
  - f_equal. lia.
  - unfold Int.add at 2. rewrite wrap_add_l, IH. f_equal. lia.
Qed.

Lemma fold_add_from_zero (l : list Z) : fold_left Int.add l 0 = Int.wrap (Zsum l).
Proof. change 0 with (Int.wrap 0) at 1. apply fold_add_wrap. Qed.

(** The difference of two counts that are not negative never wraps. *)
Lemma sub_exact (a b : Z) :
  0 <= a <= Int.max_int -> 0 <= b <= Int.max_int -> Int.sub a b = a - b.
Proof.
  unfold Int.sub, Int.max_int. intros Ha Hb. apply wrap_in_range.
  unfold Int.in_range, Int.min_int, Int.max_int. lia.
Qed.

Lemma Zsum_Permutation (l l' : list Z) : l ≡ₚ l' -> Zsum l = Zsum l'.
Proof. induction 1; simpl; lia. Qed.

Lemma Zsum_map_Permutation {A} (f : A -> Z) (l l' : list A) :
  l ≡ₚ l' -> Zsum (map f l) = Zsum (map f l').
Proof. intros H. apply Zsum_Permutation. by apply Permutation_map. Qed.

(** ** Slices *)

Lemma at_index_Some {A} (s : list A) (i : nat) (x : A) :
  s !! i = Some x -> at_index s (Z.of_nat i) = Returned x.
Proof.
  intros H. unfold at_index.
  destruct (Z.ltb_spec (Z.of_nat i) 0); [lia|]. by rewrite Nat2Z.id, H.
Qed.

Lemma at_index_last {A} (s : list A) :
  at_index s (len s - 1) = match last s with Some x => Returned x | None => Panic end.
Proof.
  unfold at_index, len. destruct s as [|a s].
  - reflexivity.
  - rewrite last_lookup.
    destruct (Z.ltb_spec (Z.of_nat (length (a :: s)) - 1) 0) as [H|H];
      [simpl in H; lia|].
    replace (Z.to_nat (Z.of_nat (length (a :: s)) - 1)) with (pred (length (a :: s)))
      by (simpl; lia).
    reflexivity.
Qed.

Lemma at_index_last_snoc {A} (s : list A) (x : A) :
  at_index (s ++ [x]) (len (s ++ [x]) - 1) = Returned x.
Proof. by rewrite at_index_last, last_snoc. Qed.

Lemma at_index_second_last {A} (s : list A) (y x : A) :
  at_index (s ++ [y; x]) (len (s ++ [y; x]) - 2) = Returned y.
Proof.
  unfold len. rewrite length_app. simpl.
  replace (Z.of_nat (length s + 2) - 2) with (Z.of_nat (length s)) by lia.
  apply at_index_Some. by rewrite lookup_app_r, Nat.sub_diag.
Qed.

Lemma at_index_before_first {A} (x : A) : at_index [x] (len [x] - 2) = Panic.
Proof. reflexivity. Qed.

(** ** PrintSummary *)

Lemma PrintSummary_fold (order : list (string * list DayItem)) (c d r : Z) :
  Forall (fun kv => snd kv <> []) order ->
  foldM PrintSummary_step order (c, d, r) =
  let lasts := omap (fun kv => last (snd kv)) order in
  Returned (fold_left Int.add (map Confirmed lasts) c,
            fold_left Int.add (map Deaths lasts) d,
            fold_left Int.add (map Recovered lasts) r).
Proof.
  intros Hne. revert c d r.
  induction Hne as [|[k s] order Hs _ IH]; intros c d r; [reflexivity|].
  simpl in Hs. simpl foldM. unfold PrintSummary_step at 1. simpl snd.
  rewrite at_index_last.
  destruct (last s) as [x|] eqn:Hlast.
  - simpl. rewrite IH. simpl. by rewrite Hlast.
  - apply last_None in Hlast. contradiction.
Qed.

Lemma nonempty_entries (ds : Dataset) (order : list (string * list DayItem)) :
  order ≡ₚ map_to_list ds ->
  (forall k s, ds !! k = Some s -> s <> []) ->
  Forall (fun kv => snd kv <> []) order.
Proof.
  intros Hperm Hne. apply Forall_forall. intros [k s] Hin. simpl.
  apply (Hne k). apply elem_of_map_to_list. by rewrite <- Hperm.
Qed.

(** C6. For every dataset in which every country's series is non-empty
    (the empty dataset included) and whatever the order in which the map is
    iterated, [PrintSummary] computes the three totals without panicking:
    each is the sum, over all countries, of the field of the country's last
    record, as a Go int, that is, brought into 64 bits; it is the exact sum
    whenever that fits a Go int. *)
Theorem PrintSummary_sums_latest (ds : Dataset) (order : list (string * list DayItem)) :
  order ≡ₚ map_to_list ds ->
  (forall k s, ds !! k = Some s -> s <> []) ->
  PrintSummary_totals order =
    Returned (Int.wrap (Zsum (map Confirmed (latest_records ds))),
              Int.wrap (Zsum (map Deaths (latest_records ds))),
              Int.wrap (Zsum (map Recovered (latest_records ds)))) /\
  (Int.in_range (Zsum (map Confirmed (latest_records ds))) ->
   Int.in_range (Zsum (map Deaths (latest_records ds))) ->
   Int.in_range (Zsum (map Recovered (latest_records ds))) ->
   PrintSummary_totals order =
     Returned (Zsum (map Confirmed (latest_records ds)),
               Zsum (map Deaths (latest_records ds)),
               Zsum (map Recovered (latest_records ds)))).
Proof.
  intros Hperm Hne.
  assert (Htotals : PrintSummary_totals order =
    Returned (Int.wrap (Zsum (map Confirmed (latest_records ds))),
              Int.wrap (Zsum (map Deaths (latest_records ds))),
              Int.wrap (Zsum (map Recovered (latest_records ds))))).
  { unfold PrintSummary_totals.
    rewrite PrintSummary_fold by eauto using nonempty_entries.
    cbv zeta. rewrite !fold_add_from_zero. unfold latest_records.
    assert (Hl : omap (fun kv : string * list DayItem => last (snd kv)) order
                 ≡ₚ omap (fun kv => last (snd kv)) (map_to_list ds))
      by (by rewrite Hperm).
    by rewrite !(Zsum_map_Permutation _ _ _ Hl). }
  split; [exact Htotals|].
  intros Hc Hd Hr. rewrite Htotals. by rewrite !wrap_in_range.
Qed.

(** An empty series stops [FetchData] at line 228, and [PrintSummary] at
    line 240. *)
Lemma empty_series_panics (c : string) (rest : list (string * list DayItem))
    (swaps : list (Z * Z)) (ranks : PairList) :
  FetchData_ranks ((c, []) :: rest) swaps ranks = Panic /\
  PrintSummary_totals ((c, []) :: rest) = Panic.
Proof. by split. Qed.

(** ** PrintCountry *)

Lemma eqb_all_false (country : string) :
  country <> "all" -> String.eqb country "all" = false.
Proof. intros H. by apply String.eqb_neq. Qed.

Lemma country_row_one_record (country : string) (r : DayItem) :
  country_row country [r] = Panic.
Proof. reflexivity. Qed.

Lemma country_row_two_records (country : string) (s : list DayItem) (ml l : DayItem) :
  country_row country (s ++ [ml; l]) =
  Returned (mkRow country (Confirmed l) (Deaths l) (Recovered l)
                  (Int.sub (Confirmed l) (Confirmed ml))
                  (Int.sub (Deaths l) (Deaths ml))
                  (Int.sub (Recovered l) (Recovered ml))).
Proof.
  unfold country_row.
  replace (s ++ [ml; l]) with ((s ++ [ml]) ++ [l]) at 1 2 by (by rewrite <- app_assoc).
  rewrite at_index_last_snoc. simpl. by rewrite at_index_second_last.
Qed.

(** C2. What [PrintCountry] does for a country given by name.  When the
    series of the country has exactly one record, the read of the record
    before the last one, [countryItem[len(countryItem)-2]], is out of range
    and the run panics: no error is returned.  When the series has two or
    more records, the row holds the three differences between the last and
    the second-last record, computed on Go ints. *)
Theorem PrintCountry_single_record_panics (g : Globals) (country : string) (max : Z) :
  country <> "all" ->
  (forall r, AllValues g !! country = Some [r] ->
     PrintCountry_rows g country max = Panic) /\
  (forall s ml l, AllValues g !! country = Some (s ++ [ml; l]) ->
     PrintCountry_rows g country max =
     Returned (Ok [mkRow country (Confirmed l) (Deaths l) (Recovered l)
                         (Int.sub (Confirmed l) (Confirmed ml))
                         (Int.sub (Deaths l) (Deaths ml))
                         (Int.sub (Recovered l) (Recovered ml))])).
Proof.
  intros Hall. unfold PrintCountry_rows. rewrite (eqb_all_false _ Hall).
  split.
  - intros r ->. by rewrite country_row_one_record.
  - intros s ml l ->. by rewrite country_row_two_records.
Qed.

(** The "all" branch meets the same read: a country with a single record at
    the head of the rank index stops the run as soon as one row is asked
    for. *)
Lemma PrintCountry_all_single_record_panics (g : Globals) (p : Pair)
    (rest : PairList) (r : DayItem) (max : Z) :
  max <> 0 ->
  ValueSortedCountries g = p :: rest ->
  AllValues g !! Key p = Some [r] ->
  PrintCountry_rows g "all" max = Panic.
Proof.
  intros Hmax Hranks Hp. unfold PrintCountry_rows. simpl String.eqb.
  rewrite Hranks. simpl. rewrite Hp.
  destruct max; [congruence | reflexivity..].
Qed.

(** C7. For every dataset and every name other than the selector ["all"]
    that is not a key of the dataset, the table and both charts return the
    error "country not found in dataset"; no row and no series is
    produced, and nothing panics. *)
Theorem unknown_country_is_not_found (g : Globals)
    (order : list (string * list DayItem)) (country : string) (max : Z) :
  country <> "all" ->
  AllValues g !! country = None ->
  PrintCountry_rows g country max = Returned (Err country_not_found) /\
  DrawCountryBarChart_series (AllValues g) order country max
    = Returned (Err country_not_found) /\
  DrawCountryLineChart_series (AllValues g) order country max
    = Returned (Err country_not_found).
Proof.
  intros Hall Hnone.
  unfold PrintCountry_rows, DrawCountryBarChart_series, DrawCountryLineChart_series.
  rewrite (eqb_all_false _ Hall), Hnone. auto.
Qed.

(** ** The window loop *)

Lemma windowLoop_take {S} (body : DayItem -> S -> S) (max : Z)
    (s : list DayItem) (n : nat) (j : Z) (st : S) :
  (n <= length s)%nat ->
  windowLoop body max s n j st =
  fold_left (fun st item => body item st) (take (visits max j n) (rev (take n s))) st.
Proof.
  revert j st. induction n as [|i IH]; intros j st Hn.
  - unfold visits. by destruct (j <? max).
  - destruct (lookup_lt_is_Some_2 s i) as [item Hitem]; [lia|].
    simpl windowLoop. rewrite Hitem.
    rewrite (take_S_r _ _ _ Hitem), rev_app_distr. simpl rev. simpl app.
    unfold visits.
    destruct (Z.eqb_spec (j + 1) max) as [E|E].
    + destruct (Z.ltb_spec j max); [|lia].
      replace (Z.to_nat (max - j)) with 1%nat by lia.
      rewrite Nat.min_r by lia. reflexivity.
    + rewrite IH by lia. unfold visits.
      destruct (Z.ltb_spec j max), (Z.ltb_spec (j + 1) max); try lia.
      * replace (Z.to_nat (max - j)) with (Datatypes.S (Z.to_nat (max - (j + 1)))) by lia.
        rewrite <- Nat.succ_min_distr. reflexivity.
      * reflexivity.
Qed.

(** The loop visits the window of the series, newest record first. *)
Lemma windowLoop_window {S} (body : DayItem -> S -> S) (max : Z)
    (s : list DayItem) (st : S) :
  windowLoop body max s (length s) 0 st =
  fold_left (fun st item => body item st) (rev (window max s)) st.
Proof.
  rewrite windowLoop_take by lia. f_equal.
  rewrite firstn_all. unfold visits, window.
  destruct (Z.ltb_spec 0 max), (Z.leb_spec 1 max); try lia.
  - rewrite Z.sub_0_r.
    destruct (Nat.le_gt_cases (length s) (Z.to_nat max)) as [Hle|Hgt].
    + rewrite Nat.min_l by lia.
      replace (length s - Z.to_nat max)%nat with 0%nat by lia. simpl.
      rewrite <- length_rev. apply firstn_all.
    + rewrite Nat.min_r by lia. apply firstn_rev.
  - rewrite <- length_rev. apply firstn_all.
Qed.

Lemma window_last (max : Z) (s : list DayItem) :
  1 <= max ->
  window max s = last_records (Nat.min (Z.to_nat max) (length s)) s.
Proof.
  intros Hmax. unfold window, last_records. destruct (Z.leb_spec 1 max); [|lia].
  f_equal. lia.
Qed.

(** ** Reversal in place *)

Lemma swap_elems_middle {A} (pre mid post : list A) (x y : A) :
  swap_elems (pre ++ x :: mid ++ y :: post)
             (Z.of_nat (length pre)) (Z.of_nat (length pre + Datatypes.S (length mid)))
  = Returned (pre ++ y :: mid ++ x :: post).
Proof.
  unfold swap_elems.
  assert (Hj : (pre ++ x :: mid ++ y :: post) !! (length pre + Datatypes.S (length mid))%nat
               = Some y).
  { rewrite lookup_app_r by lia.
    replace (length pre + Datatypes.S (length mid) - length pre)%nat
      with (Datatypes.S (length mid)) by lia.
    simpl. rewrite lookup_app_r by lia. by rewrite Nat.sub_diag. }
  assert (Hi : (pre ++ x :: mid ++ y :: post) !! length pre = Some x).
  { rewrite lookup_app_r by lia. by rewrite Nat.sub_diag. }
  rewrite (at_index_Some _ _ _ Hj). simpl. rewrite (at_index_Some _ _ _ Hi). simpl.
  f_equal. rewrite !Nat2Z.id.
  rewrite insert_app_r_alt by lia. rewrite Nat.sub_diag. simpl.
  rewrite insert_app_r_alt by lia.
  replace (length pre + Datatypes.S (length mid) - length pre)%nat
    with (Datatypes.S (length mid)) by lia.
  simpl. rewrite insert_app_r_alt by lia. by rewrite Nat.sub_diag.
Qed.

Lemma list_ends {A} (l : list A) :
  l = [] \/ (exists x, l = [x]) \/ (exists x mid y, l = x :: mid ++ [y]).
Proof.
  destruct l as [|x l]; [by left|]. right.
  destruct l as [|z l] using rev_ind; [left; by exists x|].
  right. by exists x, l, z.
Qed.

Lemma reverse_loop_rev {A} (fuel : nat) (pre mid post : list A) :
  (length mid <= 2 * fuel)%nat ->
  reverse_loop fuel (Z.of_nat (length pre))
               (Z.of_nat (length pre) + Z.of_nat (length mid) - 1)
               (pre ++ mid ++ post)
  = Returned (pre ++ rev mid ++ post).
Proof.
  revert pre mid post. induction fuel as [|fuel IH]; intros pre mid post Hlen.
  - destruct mid; [reflexivity | simpl in Hlen; lia].
  - simpl reverse_loop.
    destruct (list_ends mid) as [-> | [[x ->] | (x & mid' & y & ->)]].
    + simpl length. destruct (Z.ltb_spec (Z.of_nat (length pre))
                                (Z.of_nat (length pre) + Z.of_nat 0 - 1)); [lia|done].
    + simpl length. destruct (Z.ltb_spec (Z.of_nat (length pre))
                                (Z.of_nat (length pre) + Z.of_nat 1 - 1)); [lia|done].
    + simpl length in *. rewrite length_app in *. simpl length in *.
      destruct (Z.ltb_spec (Z.of_nat (length pre))
                  (Z.of_nat (length pre) + Z.of_nat (Datatypes.S (length mid' + 1)) - 1));
        [|lia].
      replace (Z.of_nat (length pre) + Z.of_nat (Datatypes.S (length mid' + 1)) - 1)
        with (Z.of_nat (length pre + Datatypes.S (length mid'))) by lia.
      replace ((x :: mid' ++ [y]) ++ post) with (x :: mid' ++ y :: post)
        by (simpl; by rewrite <- app_assoc).
      rewrite swap_elems_middle. simpl.
      specialize (IH (pre ++ [y]) mid' (x :: post)).
      rewrite length_app in IH. simpl length in IH.
      replace (Z.of_nat (length pre) + 1) with (Z.of_nat (length pre + 1)) by lia.
      replace (Z.of_nat (length pre + Datatypes.S (length mid')) - 1)
        with (Z.of_nat (length pre + 1) + Z.of_nat (length mid') - 1) by lia.
      replace (pre ++ y :: mid' ++ x :: post) with ((pre ++ [y]) ++ mid' ++ x :: post)
        by (by rewrite <- app_assoc).
      rewrite IH by lia.
      f_equal. simpl. rewrite rev_app_distr. simpl.
      by rewrite <- !app_assoc.
Qed.

Lemma reverse_loop_whole {A} (s : list A) :
  reverse_loop (length s) 0 (len s - 1) s = Returned (rev s).
Proof.
  pose proof (reverse_loop_rev (length s) [] s []) as H.
  simpl in H. rewrite !app_nil_r in H. unfold len. apply H. lia.
Qed.

Lemma ReverseStrings_rev (s : list string) : ReverseStrings s = Returned (rev s).
Proof. apply reverse_loop_whole. Qed.

Lemma ReverseFloats_rev (s : list float) : ReverseFloats s = Returned (rev s).
Proof. apply reverse_loop_whole. Qed.

(** ** The series of one country *)

Lemma country_body_fold (l : list DayItem) (sr : Series) :
  fold_left (fun sr item => country_body item sr) l sr =
  mkSeries (Labels sr ++ map Date l)
           (cData sr ++ map (float_of Confirmed) l)
           (dData sr ++ map (float_of Deaths) l)
           (rData sr ++ map (float_of Recovered) l).
Proof.
  revert sr. induction l as [|r l IH]; intros sr; simpl.
  - rewrite !app_nil_r. by destruct sr.
  - rewrite IH. simpl. by rewrite <- !app_assoc.
Qed.

Lemma plot_body_fold (l : list DayItem) (sr : Series) :
  fold_left (fun sr item => plot_body item sr) l sr =
  mkSeries (Labels sr)
           (cData sr ++ map (float_of Confirmed) l)
           (dData sr ++ map (float_of Deaths) l)
           (rData sr ++ map (float_of Recovered) l).
Proof.
  revert sr. induction l as [|r l IH]; intros sr; simpl.
  - rewrite !app_nil_r. by destruct sr.
  - rewrite IH. simpl. by rewrite <- !app_assoc.
Qed.

Lemma rev_map_rev {A B} (f : A -> B) (l : list A) : rev (map f (rev l)) = map f l.
Proof. by rewrite map_rev, rev_involutive. Qed.

Lemma StronglySorted_drop {A} (R : A -> A -> Prop) (n : nat) (l : list A) :
  StronglySorted R l -> StronglySorted R (drop n l).
Proof.
  revert l. induction n as [|n IH]; intros l Hl; [done|].
  destruct l as [|x l]; [done|]. simpl. apply IH. by inversion Hl.
Qed.

(** C8. For a country given by name and every [max >= 1], the series handed
    to the charts are the last [min(max, length)] records of the country's
    series in their original order: the bar chart gets their dates as labels
    and their three counts as float64, the line chart the three counts.  So
    whenever the dates of the series ascend, under whatever order of dates,
    the labels of the chart ascend too. *)
Theorem windowed_series_chronological (all : Dataset)
    (order : list (string * list DayItem)) (country : string) (max : Z)
    (s : list DayItem) :
  country <> "all" ->
  all !! country = Some s ->
  1 <= max ->
  DrawCountryBarChart_series all order country max =
    Returned (Ok (mkSeries
      (map Date (last_records (Nat.min (Z.to_nat max) (length s)) s))
      (map (float_of Confirmed) (last_records (Nat.min (Z.to_nat max) (length s)) s))
      (map (float_of Deaths) (last_records (Nat.min (Z.to_nat max) (length s)) s))
      (map (float_of Recovered) (last_records (Nat.min (Z.to_nat max) (length s)) s))))
  /\ DrawCountryLineChart_series all order country max =
    Returned (Ok
      (map (float_of Confirmed) (last_records (Nat.min (Z.to_nat max) (length s)) s),
       map (float_of Deaths) (last_records (Nat.min (Z.to_nat max) (length s)) s),
       map (float_of Recovered) (last_records (Nat.min (Z.to_nat max) (length s)) s)))
  /\ forall before : string -> string -> Prop,
       StronglySorted before (map Date s) ->
       StronglySorted before
         (map Date (last_records (Nat.min (Z.to_nat max) (length s)) s)).
Proof.
  intros Hall Hs Hmax.
  unfold DrawCountryBarChart_series, DrawCountryLineChart_series.
  rewrite (eqb_all_false _ Hall), Hs, !windowLoop_window.
  rewrite country_body_fold, plot_body_fold. simpl.
  rewrite ReverseStrings_rev, !ReverseFloats_rev. simpl.
  rewrite !rev_map_rev, (window_last _ _ Hmax).
  repeat split.
  intros before Hsorted. unfold last_records.
  rewrite <- skipn_map. by apply StronglySorted_drop.
Qed.

(** ** Sorting *)

Lemma at_index_Returned {A} (s : list A) (i : Z) (x : A) :
  at_index s i = Returned x -> 0 <= i /\ s !! Z.to_nat i = Some x.
Proof.
  unfold at_index. destruct (Z.ltb_spec i 0); [done|].
  destruct (s !! Z.to_nat i) eqn:E; [|done]. intros [= ->]. split; [lia|done].
Qed.

Lemma swap_elems_Permutation {A} (p p' : list A) (i j : Z) :
  swap_elems p i j = Returned p' -> p' ≡ₚ p.
Proof.
  unfold swap_elems.
  destruct (at_index p j) as [pj|] eqn:Hj; [|done].
  destruct (at_index p i) as [pi|] eqn:Hi; [|done].
  simpl. intros [= <-].
  apply at_index_Returned in Hi as [_ Hi], Hj as [_ Hj].
  by apply Permutation_insert_swap.
Qed.

Lemma swaps_Permutation {A} (swaps : list (Z * Z)) (p p' : list A) :
  foldM (fun d ij => swap_elems d (fst ij) (snd ij)) swaps p = Returned p' -> p' ≡ₚ p.
Proof.
  revert p. induction swaps as [|[i j] swaps IH]; intros p; simpl.
  - by intros [= <-].
  - destruct (swap_elems p i j) as [q|] eqn:Hq; [|done]. simpl.
    intros H. rewrite (IH _ H). by apply swap_elems_Permutation in Hq.
Qed.

(** Neighbours in order put the whole slice in order. *)
Lemma neighbours_to_all {A} (R : A -> A -> Prop) `{!Transitive R} (l : list A) :
  (forall (i : nat) x y, l !! i = Some x -> l !! Datatypes.S i = Some y -> R x y) ->
  forall (i j : nat) x y, (i < j)%nat -> l !! i = Some x -> l !! j = Some y -> R x y.
Proof.
  intros Hadj i j x y Hij Hi Hj.
  replace j with (i + Datatypes.S (j - i - 1))%nat in Hj by lia.
  revert y Hj. generalize (j - i - 1)%nat as d. clear j Hij.
  induction d as [|d IH]; intros y Hj.
  - apply (Hadj i); [done|]. by replace (Datatypes.S i) with (i + 1)%nat by lia.
  - destruct (lookup_lt_is_Some_2 l (i + Datatypes.S d)) as [z Hz].
    { apply lookup_lt_Some in Hj. lia. }
    transitivity z; [by apply IH|].
    apply (Hadj (i + Datatypes.S d)%nat); [done|].
    by replace (Datatypes.S (i + Datatypes.S d)) with (i + Datatypes.S (Datatypes.S d))%nat
      by lia.
Qed.

(** What the contract of a sort says of two neighbours. *)
Lemma sorted_neighbours {A} (less : A -> A -> bool) (l : list A)
    (i : nat) (x y : A) :
  (forall k, 0 < k -> k < len l ->
     (pk ← at_index l k; pj ← at_index l (k - 1); Returned (less pk pj)) = Returned false) ->
  l !! i = Some x -> l !! Datatypes.S i = Some y -> less y x = false.
Proof.
  intros Hsorted Hi Hj.
  specialize (Hsorted (Z.of_nat (Datatypes.S i))).
  pose proof (lookup_lt_Some _ _ _ Hj) as Hlen. unfold len in Hsorted.
  replace (Z.of_nat (Datatypes.S i) - 1) with (Z.of_nat i) in Hsorted by lia.
  rewrite (at_index_Some _ _ _ Hj), (at_index_Some _ _ _ Hi) in Hsorted.
  assert (Returned (less y x) = Returned false) as [= ->] by (apply Hsorted; lia).
  reflexivity.
Qed.

#[local] Instance string_lt_trans : Transitive string_lt.
Proof.
  intros x y z. unfold string_lt, String.ltb.
  destruct (String.compare x y) eqn:Hxy; try done.
  destruct (String.compare y z) eqn:Hyz; try done.
  intros _ _.
  apply String_as_OT.cmp_lt in Hxy, Hyz.
  pose proof (String_as_OT.lt_trans _ _ _ Hxy Hyz) as Hxz.
  apply String_as_OT.cmp_lt in Hxz. unfold String_as_OT.cmp in Hxz. by rewrite Hxz.
Qed.

#[local] Instance count_ge_trans : Transitive count_ge.
Proof. intros p q r. unfold count_ge. lia. Qed.

Lemma string_ltb_total (x y : string) :
  String.ltb y x = false -> x <> y -> String.ltb x y = true.
Proof.
  unfold String.ltb. rewrite (String.compare_antisym x y).
  destruct (String.compare y x) eqn:E; try done.
  apply String.compare_eq_iff in E. congruence.
Qed.

Lemma at_index_out_of_range {A} (s : list A) (i : Z) :
  i < 0 \/ len s <= i -> at_index s i = Panic.
Proof.
  unfold at_index, len. intros H.
  destruct (Z.ltb_spec i 0); [done|].
  rewrite lookup_ge_None_2; [done|lia].
Qed.

Lemma at_index_in_range {A} (s : list A) (i : Z) :
  0 <= i < len s -> exists x, s !! Z.to_nat i = Some x /\ at_index s i = Returned x.
Proof.
  unfold len. intros H.
  destruct (lookup_lt_is_Some_2 s (Z.to_nat i)) as [x Hx]; [lia|].
  exists x. split; [done|].
  rewrite <- (Z2Nat.id i) at 1 by lia. by apply at_index_Some.
Qed.

Lemma swap_elems_exchanges {A} (p : list A) (i j : Z) :
  (0 <= i < len p -> 0 <= j < len p ->
   exists p',
     swap_elems p i j = Returned p' /\
     length p' = length p /\
     p' ≡ₚ p /\
     p' !! Z.to_nat i = p !! Z.to_nat j /\
     p' !! Z.to_nat j = p !! Z.to_nat i /\
     (forall k : nat, k <> Z.to_nat i -> k <> Z.to_nat j -> p' !! k = p !! k)) /\
  (i < 0 \/ len p <= i \/ j < 0 \/ len p <= j -> swap_elems p i j = Panic).
Proof.
  split.
  - intros Hi Hj.
    destruct (at_index_in_range p i Hi) as (pi & Hpi & Ei).
    destruct (at_index_in_range p j Hj) as (pj & Hpj & Ej).
    unfold swap_elems. rewrite Ej, Ei. simpl.
    eexists. split; [reflexivity|].
    pose proof (lookup_lt_Some _ _ _ Hpi) as Li.
    pose proof (lookup_lt_Some _ _ _ Hpj) as Lj.
    split; [by rewrite !length_insert|].
    split; [by apply Permutation_insert_swap|].
    destruct (decide (Z.to_nat i = Z.to_nat j)) as [E|N].
    + rewrite E in *. rewrite list_lookup_insert_eq by (by rewrite length_insert).
      repeat split; try congruence.
      intros k Hk _. by rewrite !list_lookup_insert_ne.
    + split; [|split].
      * rewrite list_lookup_insert_ne by congruence.
        rewrite list_lookup_insert_eq by done. congruence.
      * rewrite list_lookup_insert_eq by (by rewrite length_insert). congruence.
      * intros k Hki Hkj. by rewrite !list_lookup_insert_ne.
  - intros H. unfold swap_elems.
    destruct (at_index p j) as [pj|] eqn:Ej; [|done]. simpl.
    destruct (at_index p i) as [pi|] eqn:Ei; [|done].
    exfalso. apply at_index_Returned in Ei as [? Ei], Ej as [? Ej].
    apply lookup_lt_Some in Ei, Ej. unfold len in H. lia.
Qed.

(** ** The modelled sort sorts *)

Section ListSort.
Context {A : Type} (less : A -> A -> bool).
Hypothesis less_asym : forall x y, less x y = true -> less y x = false.

#[local] Instance list_sort_interface : SortInterface (list A) := list_sort less.

Lemma swap_neighbours (l : list A) (j : nat) (x y : A) :
  (1 <= j)%nat -> l !! (j - 1)%nat = Some x -> l !! j = Some y ->
  exists l1,
    swap_elems l (Z.of_nat j) (Z.of_nat j - 1) = Returned l1 /\
    length l1 = length l /\
    l1 !! (j - 1)%nat = Some y /\ l1 !! j = Some x /\
    (forall k : nat, k <> j -> k <> (j - 1)%nat -> l1 !! k = l !! k).
Proof.
  intros Hj Hx Hy.
  pose proof (lookup_lt_Some _ _ _ Hy) as Hlen.
  destruct (proj1 (swap_elems_exchanges l (Z.of_nat j) (Z.of_nat j - 1)))
    as (l1 & Hrun & Hl & _ & Hi & Hi' & Hother); [unfold len; lia..|].
  replace (Z.to_nat (Z.of_nat j - 1)) with (j - 1)%nat in * by lia.
  rewrite Nat2Z.id in *.
  exists l1. repeat split; try done; congruence.
Qed.

Lemma Less_neighbours (l : list A) (j : nat) (x y : A) :
  (1 <= j)%nat -> l !! (j - 1)%nat = Some x -> l !! j = Some y ->
  Less l (Z.of_nat j) (Z.of_nat j - 1) = Returned (less y x).
Proof.
  intros Hj Hx Hy. simpl.
  rewrite (at_index_Some _ _ _ Hy).
  replace (Z.of_nat j - 1) with (Z.of_nat (j - 1)) by lia.
  by rewrite (at_index_Some _ _ _ Hx).
Qed.

Lemma insert_down_sorts (fuel j i : nat) (l : list A) :
  (j <= fuel)%nat -> (j <= i)%nat -> (i < length l)%nat ->
  (forall k : nat, (1 <= k <= i)%nat -> k <> j -> pair_ok less l k) ->
  ((j < i)%nat -> (1 <= j)%nat ->
   forall x y, l !! (j - 1)%nat = Some x -> l !! (j + 1)%nat = Some y -> less y x = false) ->
  exists l' swaps,
    insert_down fuel (Z.of_nat j) l = Returned (l', swaps) /\
    sort_Sort l swaps = Returned l' /\
    length l' = length l /\
    (forall k : nat, (1 <= k <= i)%nat -> pair_ok less l' k).
Proof.
  revert j l. induction fuel as [|fuel IH]; intros j l Hfuel Hji Hil Hpairs Hgap.
  - assert (j = 0)%nat as -> by lia.
    exists l, []. repeat split; try done.
    intros k Hk. apply Hpairs; lia.
  - simpl insert_down.
    destruct (Z.ltb_spec 0 (Z.of_nat j)) as [Hpos|Hzero].
    2:{ assert (j = 0)%nat as -> by lia.
        exists l, []. repeat split; try done.
        intros k Hk. apply Hpairs; lia. }
    destruct (lookup_lt_is_Some_2 l j) as [y Hy]; [lia|].
    destruct (lookup_lt_is_Some_2 l (j - 1)) as [x Hx]; [lia|].
    pose proof (Less_neighbours l j x y ltac:(lia) Hx Hy) as HLess. simpl in HLess.
    rewrite HLess. simpl.
    destruct (less y x) eqn:Hless.
    + destruct (swap_neighbours l j x y) as (l1 & Hswap & Hlen & H1 & H2 & Hother);
        [lia|done|done|].
      rewrite Hswap. simpl.
      destruct (IH (j - 1)%nat l1) as (l' & swaps & Hrun & Hreplay & Hlen' & Hok).
      * lia.
      * lia.
      * lia.
      * intros k Hk Hne x' y' Hx' Hy'.
        destruct (decide (k = j)) as [->|Hkj].
        { assert (x' = y) as -> by congruence.
          assert (y' = x) as -> by congruence.
          by apply less_asym. }
        destruct (decide (k = j + 1)%nat) as [->|Hkj1].
        { replace (j + 1 - 1)%nat with j in Hx' by lia.
          assert (x' = x) as -> by congruence.
          rewrite Hother in Hy' by lia.
          apply (Hgap ltac:(lia) ltac:(lia) x y'); done. }
        rewrite Hother in Hx' by lia. rewrite Hother in Hy' by lia.
        apply (Hpairs k Hk Hkj x' y'); done.
      * intros Hlt Hge x' y' Hx' Hy'.
        replace (j - 1 + 1)%nat with j in Hy' by lia.
        assert (y' = x) as -> by congruence.
        rewrite Hother in Hx' by lia.
        apply (Hpairs (j - 1)%nat ltac:(lia) ltac:(lia) x' x); done.
      * replace (Z.of_nat j - 1) with (Z.of_nat (j - 1)) by lia.
        rewrite Hrun. simpl.
        exists l', ((Z.of_nat j, Z.of_nat (j - 1)) :: swaps).
        split; [done|]. split.
        { unfold sort_Sort. simpl foldM.
          replace (Z.of_nat (j - 1)) with (Z.of_nat j - 1) by lia.
          simpl Swap. rewrite Hswap. simpl. exact Hreplay. }
        split; [lia|done].
    + exists l, []. repeat split; try done.
      intros k Hk. destruct (decide (k = j)) as [->|Hkj].
      * intros x' y' Hx' Hy'. congruence.
      * by apply Hpairs.
Qed.

Lemma sort_Sort_app (l l1 l2 : list A) (swaps1 swaps2 : list (Z * Z)) :
  sort_Sort l swaps1 = Returned l1 -> sort_Sort l1 swaps2 = Returned l2 ->
  sort_Sort l (swaps1 ++ swaps2) = Returned l2.
Proof.
  unfold sort_Sort. revert l. induction swaps1 as [|ij swaps1 IH]; intros l; simpl.
  - by intros [= ->].
  - destruct (swap_elems l (fst ij) (snd ij)) as [l'|]; [|done]. simpl. apply IH.
Qed.

Lemma insertionSort_from_sorts (fuel i : nat) (l : list A) :
  (length l <= fuel + i)%nat -> (1 <= i)%nat ->
  (forall k : nat, (1 <= k <= i - 1)%nat -> pair_ok less l k) ->
  exists l' swaps,
    insertionSort_from fuel (len l) (Z.of_nat i) l = Returned (l', swaps) /\
    sort_Sort l swaps = Returned l' /\
    length l' = length l /\
    (forall k : nat, (1 <= k)%nat -> pair_ok less l' k).
Proof.
  revert i l. induction fuel as [|fuel IH]; intros i l Hfuel Hi Hpairs.
  - exists l, []. repeat split; try done.
    intros k Hk. destruct (decide (k <= i - 1)%nat); [apply Hpairs; lia|].
    intros x y _ Hy. apply lookup_lt_Some in Hy. lia.
  - simpl insertionSort_from. unfold len.
    destruct (Z.ltb_spec (Z.of_nat i) (Z.of_nat (length l))) as [Hlt|Hge].
    2:{ exists l, []. repeat split; try done.
        intros k Hk. destruct (decide (k <= i - 1)%nat); [apply Hpairs; lia|].
        intros x y _ Hy. apply lookup_lt_Some in Hy. lia. }
    rewrite Nat2Z.id.
    destruct (insert_down_sorts i i i l) as (l1 & swaps1 & Hrun1 & Hreplay1 & Hlen1 & Hok1);
      [lia|lia|lia| |lia|].
    { intros k Hk Hne. apply Hpairs. lia. }
    rewrite Hrun1. simpl.
    destruct (IH (i + 1)%nat l1) as (l2 & swaps2 & Hrun2 & Hreplay2 & Hlen2 & Hok2).
    + lia.
    + lia.
    + intros k Hk. apply Hok1. lia.
    + replace (Z.of_nat i + 1) with (Z.of_nat (i + 1)) by lia.
      unfold len in Hrun2. rewrite Hlen1 in Hrun2. rewrite Hrun2. simpl.
      exists l2, (swaps1 ++ swaps2). split; [done|].
      split; [by apply (sort_Sort_app l l1 l2)|]. split; [lia|done].
Qed.

(** The modelled sort comes back and leaves the slice sorted. *)
Lemma list_sort_contract (l : list A) : sort_Sort_contract l (sort_Sort_swaps l).
Proof.
  destruct (insertionSort_from_sorts (length l) 1 l) as (l' & swaps & Hrun & Hreplay & Hlen & Hok);
    [lia|lia| |].
  { intros k Hk. lia. }
  unfold sort_Sort_contract, sort_Sort_swaps, insertionSort.
  simpl Len. unfold len at 1. rewrite Nat2Z.id.
  change 1 with (Z.of_nat 1). rewrite Hrun. simpl.
  exists l'. split; [exact Hreplay|].
  intros i Hi Hlt. simpl in Hlt. unfold len in Hlt.
  destruct (lookup_lt_is_Some_2 l' (Z.to_nat i)) as [y Hy]; [lia|].
  destruct (lookup_lt_is_Some_2 l' (Z.to_nat i - 1)) as [x Hx]; [lia|].
  rewrite <- (Z2Nat.id i) by lia.
  rewrite (Less_neighbours l' (Z.to_nat i) x y) by (done || lia).
  f_equal. apply (Hok (Z.to_nat i)); [lia|done|done].
Qed.
End ListSort.

Lemma PairList_sort_contract (ranks : PairList) :
  sort_Sort_contract ranks (sort_Sort_swaps ranks).
Proof.
  apply (list_sort_contract (fun p q : Pair => Value p >? Value q)).
  intros x y H. destruct (Z.gtb_spec (Value x) (Value y)); [|done].
  destruct (Z.gtb_spec (Value y) (Value x)); [lia|done].
Qed.

Lemma StringSlice_sort_contract (names : StringSlice) :
  sort_Sort_contract names (sort_Sort_swaps names).
Proof.
  apply (list_sort_contract String.ltb).
  intros x y. unfold String.ltb. rewrite (String.compare_antisym x y).
  by destruct (String.compare y x).
Qed.

(** ** The name index *)

Lemma names_fold (order : list (string * list DayItem)) (names : list string) :
  fold_left (fun names kv => names ++ [fst kv]) order names = names ++ map fst order.
Proof.
  revert names. induction order as [|kv order IH]; intros names; simpl.
  - by rewrite app_nil_r.
  - rewrite IH. by rewrite <- app_assoc.
Qed.

(** The name index, for any calls of [Swap] that leave the slice sorted. *)
Lemma names_of_sorted_slice (ds : Dataset)
    (order : list (string * list DayItem)) (swaps : list (Z * Z)) :
  order ≡ₚ map_to_list ds ->
  sort_Sort_contract (map fst order : StringSlice) swaps ->
  exists names,
    FetchData_names order swaps [] = Returned names /\
    (forall (i j : nat) x y, (i < j)%nat ->
       names !! i = Some x -> names !! j = Some y -> String.ltb x y = true) /\
    NoDup names /\
    (forall k, k ∈ names <-> is_Some (ds !! k)).
Proof.
  intros Hperm (names & Hrun & Hsorted).
  exists names. unfold FetchData_names. rewrite names_fold. simpl app.
  split; [exact Hrun|].
  assert (Hnames : names ≡ₚ map fst (map_to_list ds)).
  { rewrite <- Hperm. apply (swaps_Permutation swaps). exact Hrun. }
  assert (Hnodup : NoDup names).
  { rewrite Hnames. apply NoDup_fst_map_to_list. }
  split; [|split; [exact Hnodup|]].
  - apply (neighbours_to_all string_lt names).
    intros i x y Hi Hj. apply string_ltb_total.
    + by apply (sorted_neighbours String.ltb names i).
    + intros ->. apply (NoDup_lookup _ _ _ _ Hnodup Hi) in Hj. lia.
  - intros k. rewrite Hnames.
    change (map fst (map_to_list ds)) with (fst <$> map_to_list ds).
    rewrite list_elem_of_fmap. split.
    + intros ([k' v] & -> & Hin). apply elem_of_map_to_list in Hin. by exists v.
    + intros [v Hv]. exists (k, v). split; [done|]. by apply elem_of_map_to_list.
Qed.

(** C5. For every dataset and whatever the order in which the map is
    iterated: the name index that [FetchData] builds in a fresh process (the
    index starts empty), with [sort.Strings] as modelled above, is strictly
    ascending in Go's order of strings (byte by byte), has no name twice,
    and its names are exactly the keys of the dataset. *)
Theorem NameIndex_strictly_ascending (ds : Dataset)
    (order : list (string * list DayItem)) :
  order ≡ₚ map_to_list ds ->
  exists names,
    FetchData_names order (sort_Sort_swaps (map fst order : StringSlice)) []
      = Returned names /\
    (forall (i j : nat) x y, (i < j)%nat ->
       names !! i = Some x -> names !! j = Some y -> String.ltb x y = true) /\
    NoDup names /\
    (forall k, k ∈ names <-> is_Some (ds !! k)).
Proof.
  intros Hperm. apply names_of_sorted_slice; [exact Hperm|].
  apply StringSlice_sort_contract.
Qed.

(** ** The rank index *)

Lemma ranks_fold (order : list (string * list DayItem)) (ranks : PairList) :
  Forall (fun kv => snd kv <> []) order ->
  foldM FetchData_ranks_step order ranks = Returned (ranks ++ latest_pairs order).
Proof.
  intros Hne. revert ranks.
  induction Hne as [|[c v] order Hv _ IH]; intros ranks; simpl.
  - by rewrite app_nil_r.
  - simpl in Hv. rewrite at_index_last. unfold latest_pairs. simpl.
    unfold latest_pair at 1. simpl.
    destruct (last v) as [r|] eqn:Hlast.
    + simpl. rewrite IH. by rewrite <- app_assoc.
    + apply last_None in Hlast. contradiction.
Qed.

Lemma latest_pairs_keys (order : list (string * list DayItem)) :
  Forall (fun kv => snd kv <> []) order ->
  map Key (latest_pairs order) = map fst order.
Proof.
  induction 1 as [|[c v] order Hv _ IH]; [done|].
  unfold latest_pairs. simpl. unfold latest_pair at 1. simpl in *.
  destruct (last v) as [r|] eqn:Hlast.
  - simpl. f_equal. exact IH.
  - apply last_None in Hlast. contradiction.
Qed.

(** The rank index, for any calls of [Swap] that leave the slice sorted. *)
Lemma ranks_of_sorted_slice (ds : Dataset)
    (order : list (string * list DayItem)) (swaps : list (Z * Z)) :
  order ≡ₚ map_to_list ds ->
  (forall k s, ds !! k = Some s -> s <> []) ->
  sort_Sort_contract (latest_pairs order) swaps ->
  exists ranks,
    FetchData_ranks order swaps [] = Returned ranks /\
    length ranks = size ds /\
    map Key ranks ≡ₚ map fst (map_to_list ds) /\
    (forall p, p ∈ ranks ->
       exists s r, ds !! Key p = Some s /\ last s = Some r /\ Value p = Confirmed r) /\
    (forall (i j : nat) pi pj, (i < j)%nat ->
       ranks !! i = Some pi -> ranks !! j = Some pj -> Value pi >= Value pj).
Proof.
  intros Hperm Hne (ranks & Hrun & Hsorted).
  pose proof (nonempty_entries _ _ Hperm Hne) as Hall.
  exists ranks. unfold FetchData_ranks. rewrite (ranks_fold _ _ Hall). simpl.
  split; [exact Hrun|].
  assert (Hranks : ranks ≡ₚ latest_pairs order)
    by (apply (swaps_Permutation swaps); exact Hrun).
  assert (Hkeys : map Key ranks ≡ₚ map fst (map_to_list ds)).
  { rewrite <- Hperm, <- (latest_pairs_keys _ Hall). by apply Permutation_map. }
  split; [|split; [exact Hkeys|split]].
  - rewrite <- (length_map Key), (Permutation_length Hkeys), length_map.
    apply length_map_to_list.
  - intros p Hp. rewrite Hranks in Hp.
    apply list_elem_of_omap in Hp as ([c v] & Hin & Hpair).
    rewrite Hperm in Hin. apply elem_of_map_to_list in Hin.
    unfold latest_pair in Hpair. simpl in Hpair.
    destruct (last v) as [r|] eqn:Hlast; [|done].
    injection Hpair as <-. simpl. by exists v, r.
  - apply (neighbours_to_all count_ge ranks).
    intros i x y Hi Hj. unfold count_ge.
    pose proof (sorted_neighbours (fun p q => Value p >? Value q) ranks i x y
                  Hsorted Hi Hj) as Hgt.
    simpl in Hgt. destruct (Z.gtb_spec (Value y) (Value x)); [done|lia].
Qed.

(** C4. For every dataset whose series are all non-empty (as the data model
    of the specification has every series) and whatever the order in which
    the map is iterated: [FetchData] builds, in a fresh process (the index
    starts empty) and with [sort.Sort] as modelled above, a rank index that
    has one entry per country of the dataset, each pairing a country with
    the confirmed count of the last record of the country's series, with the
    counts descending (for positions [i < j] the count at [i] is at least
    the count at [j]). *)
Theorem RankIndex_descending (ds : Dataset)
    (order : list (string * list DayItem)) :
  order ≡ₚ map_to_list ds ->
  (forall k s, ds !! k = Some s -> s <> []) ->
  exists ranks,
    FetchData_ranks order (sort_Sort_swaps (latest_pairs order)) [] = Returned ranks /\
    length ranks = size ds /\
    map Key ranks ≡ₚ map fst (map_to_list ds) /\
    (forall p, p ∈ ranks ->
       exists s r, ds !! Key p = Some s /\ last s = Some r /\ Value p = Confirmed r) /\
    (forall (i j : nat) pi pj, (i < j)%nat ->
       ranks !! i = Some pi -> ranks !! j = Some pj -> Value pi >= Value pj).
Proof.
  intros Hperm Hne. apply ranks_of_sorted_slice; [exact Hperm|exact Hne|].
  apply PairList_sort_contract.
Qed.

(** ** The aligned view *)

Lemma get_insert (m : gmap string float) (k d : string) (v : float) :
  get (<[k := v]> m) d = if decide (k = d) then v else get m d.
Proof. unfold get. rewrite lookup_insert. by case_decide. Qed.

Lemma totals_of_step (field : DayItem -> Z) (m : gmap string float)
    (rs : list DayItem) (item : DayItem) :
  totals_of field m rs ->
  totals_of field
    (<[Date item := Float64.add (get m (Date item)) (float_of field item)]> m)
    (rs ++ [item]).
Proof.
  intros Hm date. rewrite get_insert. unfold field_total, Float64.sum.
  rewrite filter_app, map_app, fold_left_app, filter_cons, filter_nil.
  case_decide as Hd.
  - subst date. simpl. f_equal. apply Hm.
  - simpl. apply Hm.
Qed.

Lemma aggregate_body_aligned (kind : ChartKind) (index : Z) (item : DayItem)
    (acc : Accumulators) (rs : list DayItem) :
  aligned kind acc rs -> aligned kind (aggregate_body kind index item acc) (rs ++ [item]).
Proof.
  intros (Hc & Hd & Hr). unfold aligned, aggregate_body. simpl.
  split; [by apply totals_of_step|]. split; [by apply totals_of_step|].
  intros ->. by apply (totals_of_step Recovered), Hr.
Qed.

Lemma aggregate_fold_aligned (kind : ChartKind) (index : Z) (items : list DayItem)
    (acc : Accumulators) (rs : list DayItem) :
  aligned kind acc rs ->
  aligned kind (fold_left (fun acc item => aggregate_body kind index item acc) items acc)
          (rs ++ items).
Proof.
  revert acc rs. induction items as [|item items IH]; intros acc rs H; simpl.
  - by rewrite app_nil_r.
  - replace (rs ++ item :: items) with ((rs ++ [item]) ++ items)
      by (by rewrite <- app_assoc).
    by apply IH, aggregate_body_aligned.
Qed.

Lemma aggregate_countries_aligned (kind : ChartKind) (max index : Z)
    (order : list (string * list DayItem)) (acc : Accumulators) (rs : list DayItem) :
  aligned kind acc rs ->
  aligned kind (aggregate_countries kind max index order acc) (rs ++ visited max order).
Proof.
  revert index acc rs. induction order as [|[k s] order IH]; intros index acc rs H.
  - unfold visited. simpl. by rewrite app_nil_r.
  - simpl aggregate_countries. rewrite windowLoop_window.
    unfold visited. simpl map. simpl concat. rewrite app_assoc.
    by apply IH, aggregate_fold_aligned.
Qed.

Lemma aggregate_fold_labels (kind : ChartKind) (index : Z) (items : list DayItem)
    (acc : Accumulators) :
  labels (fold_left (fun acc item => aggregate_body kind index item acc) items acc) =
  labels acc ++ (if index =? 0 then map Date items else []).
Proof.
  revert acc. induction items as [|item items IH]; intros acc; simpl.
  - destruct (index =? 0); by rewrite app_nil_r.
  - rewrite IH. simpl. destruct (index =? 0); [|done]. by rewrite <- app_assoc.
Qed.

(** Labels are added for the country the iteration starts with only. *)
Lemma aggregate_countries_labels_later (kind : ChartKind) (max index : Z)
    (order : list (string * list DayItem)) (acc : Accumulators) :
  1 <= index ->
  labels (aggregate_countries kind max index order acc) = labels acc.
Proof.
  revert index acc. induction order as [|[k s] order IH]; intros index acc Hi; [done|].
  simpl aggregate_countries. rewrite IH by lia.
  rewrite windowLoop_window, aggregate_fold_labels.
  destruct (Z.eqb_spec index 0); [lia|]. by rewrite app_nil_r.
Qed.

Lemma aggregate_countries_labels (kind : ChartKind) (max : Z)
    (order : list (string * list DayItem)) (acc : Accumulators) :
  labels (aggregate_countries kind max 0 order acc) =
  labels acc ++ map Date (rev (first_window max order)).
Proof.
  destruct order as [|[k s] order]; simpl.
  - by rewrite app_nil_r.
  - rewrite aggregate_countries_labels_later by lia.
    by rewrite windowLoop_window, aggregate_fold_labels.
Qed.

Lemma aligned_empty (kind : ChartKind) : aligned kind (mkAcc [] ∅ ∅ ∅) [].
Proof. repeat split; intros; intros d; reflexivity. Qed.

Lemma rev_map_map_rev {A B C} (f : B -> C) (g : A -> B) (l : list A) :
  rev (map f (map g (rev l))) = map (fun x => f (g x)) l.
Proof. by rewrite map_map, rev_map_rev. Qed.

(** C3. For every dataset, iteration order and window length, the aligned
    view has one entry per record of the window of the country the iteration
    starts with, oldest first (none when there is no country): the labels of
    the bar chart are the dates of these records.  The entries are aligned
    by equality of the date strings: the confirmed and the deaths value of
    an entry (and, in the line chart, the recovered value too) are the
    float64 sum of the field over the records of the entry's date within the
    windows of all countries, added up in the order the loops visit them. *)
Theorem aligned_view_follows_first_country (all : Dataset)
    (order : list (string * list DayItem)) (max : Z) :
  (exists sr,
     DrawCountryBarChart_series all order "all" max = Returned (Ok sr) /\
     Labels sr = map Date (first_window max order) /\
     cData sr = map (fun r => date_total Confirmed max order (Date r))
                    (first_window max order) /\
     dData sr = map (fun r => date_total Deaths max order (Date r))
                    (first_window max order)) /\
  DrawCountryLineChart_series all order "all" max =
    Returned (Ok
      (map (fun r => date_total Confirmed max order (Date r)) (first_window max order),
       map (fun r => date_total Deaths max order (Date r)) (first_window max order),
       map (fun r => date_total Recovered max order (Date r)) (first_window max order))).
Proof.
  unfold DrawCountryBarChart_series, DrawCountryLineChart_series. simpl String.eqb.
  cbv iota.
  split.
  - pose proof (aggregate_countries_aligned BarChart max 0 order _ []
                  (aligned_empty BarChart)) as (Hc & Hd & _).
    simpl app in Hc, Hd.
    pose proof (aggregate_countries_labels BarChart max order (mkAcc [] ∅ ∅ ∅)) as Hl.
    simpl app in Hl.
    set (acc := aggregate_countries BarChart max 0 order (mkAcc [] ∅ ∅ ∅)) in *.
    simpl. rewrite ReverseStrings_rev, !ReverseFloats_rev. simpl.
    eexists. split; [reflexivity|]. simpl. rewrite Hl.
    rewrite rev_map_rev, !rev_map_map_rev.
    repeat split; apply map_ext; intros r; [apply Hc | apply Hd].
  - pose proof (aggregate_countries_aligned LineChart max 0 order _ []
                  (aligned_empty LineChart)) as (Hc & Hd & Hr).
    specialize (Hr eq_refl). simpl app in Hc, Hd, Hr.
    pose proof (aggregate_countries_labels LineChart max order (mkAcc [] ∅ ∅ ∅)) as Hl.
    simpl app in Hl.
    set (acc := aggregate_countries LineChart max 0 order (mkAcc [] ∅ ∅ ∅)) in *.
    simpl. rewrite !ReverseFloats_rev. simpl. rewrite Hl, !rev_map_map_rev.
    rewrite (map_ext (fun x => get (cMap acc) (Date x))
                     (fun r => date_total Confirmed max order (Date r)))
      by (intros r; apply Hc).
    rewrite (map_ext (fun x => get (dMap acc) (Date x))
                     (fun r => date_total Deaths max order (Date r)))
      by (intros r; apply Hd).
    rewrite (map_ext (fun x => get (rMap acc) (Date x))
                     (fun r => date_total Recovered max order (Date r)))
      by (intros r; apply Hr).
    reflexivity.
Qed.

(** ** Decoding *)

Section DecoderFacts.
Context {RawValue : Type}.
Variable object_entries : RawValue -> list (string * RawValue).
Variable object_err : RawValue -> option error.
Variable array_elems : RawValue -> list RawValue.
Variable Unmarshal : RawValue -> DayItem -> DayItem * option error.

Lemma arrayCallback_fold (elems : list RawValue) (countryItems : list DayItem) :
  fold_left (fun st arrValue => arrayCallback Unmarshal arrValue st) elems countryItems
  = countryItems ++ map (fun elem => fst (Unmarshal elem zeroDayItem)) elems.
Proof.
  revert countryItems. induction elems as [|e elems IH]; intros countryItems; simpl.
  - by rewrite app_nil_r.
  - rewrite IH. unfold arrayCallback. destruct (Unmarshal e zeroDayItem) as [d err].
    simpl. by rewrite <- app_assoc.
Qed.

Lemma ArrayEach_series (value : RawValue) :
  ArrayEach array_elems value (arrayCallback Unmarshal) []
  = decoded_series array_elems Unmarshal value.
Proof. unfold ArrayEach. by rewrite arrayCallback_fold. Qed.

Lemma ObjectEach_walk_lookup (entries : list (string * RawValue))
    (final : option error) (all : Dataset) (country : string) :
  snd (ObjectEach_walk (objectCallback array_elems Unmarshal) entries final all) = final /\
  fst (ObjectEach_walk (objectCallback array_elems Unmarshal) entries final all) !! country
  = match last_value country entries with
    | Some value => Some (decoded_series array_elems Unmarshal value)
    | None => all !! country
    end.
Proof.
  revert all. induction entries as [|[key value] entries IH]; intros all.
  - by split.
  - simpl ObjectEach_walk. destruct (IH (<[key := ArrayEach array_elems value
                                            (arrayCallback Unmarshal) []]> all))
      as [IH1 IH2].
    split; [exact IH1|]. rewrite IH2. unfold last_value.
    rewrite filter_cons. simpl fst. case_decide as Hk.
    + subst key.
      destruct (filter (fun kv : string * RawValue => fst kv = country) entries)
        as [|kv l] eqn:Hf.
      * simpl. by rewrite lookup_insert_eq, ArrayEach_series.
      * rewrite last_cons_cons.
        destruct (last (kv :: l)) eqn:Hl; [done|]. by apply last_None in Hl.
    + destruct (last (filter (fun kv : string * RawValue => fst kv = country) entries));
        [done|]. simpl. by rewrite lookup_insert_ne.
Qed.

(** The callback of [FetchData] never returns an error, so the error of
    decoding is the one [ObjectEach] finds by itself. *)
Lemma decode_error (arrayData : RawValue) (all : Dataset) :
  snd (decode object_entries object_err array_elems Unmarshal arrayData all)
  = object_err arrayData.
Proof.
  unfold decode, ObjectEach.
  apply (ObjectEach_walk_lookup _ _ _ "").
Qed.

(** [FetchData] hands on that error, when it comes back at all. *)
Lemma FetchData_error (arrayData : RawValue) (ch : Choices) (g g' : Globals)
    (err : option error) :
  FetchData object_entries object_err array_elems Unmarshal arrayData ch g
    = Returned (g', err) ->
  err = object_err arrayData.
Proof.
  unfold FetchData. rewrite <- (decode_error arrayData (AllValues g)).
  destruct (decode _ _ _ _ _ _) as [all e].
  destruct (FetchData_names _ _ _); [|done]. simpl.
  destruct (FetchData_ranks _ _ _); [|done]. simpl.
  by intros [= _ ->].
Qed.

(** C10. Whatever the libraries deliver: the series decoded for a country
    has one record per element that [ArrayEach] hands to the callback, out
    of the value of the (last) entry of the country, in the order in which
    they are handed over; no such element is skipped, whether [Unmarshal]
    reports an error for it or not.  The record of an element is the
    [DayItem] that [Unmarshal] was given as zero and then wrote to: it has
    zero fields where [Unmarshal] wrote nothing.  (How many elements of the
    raw array are handed over is up to [ArrayEach], whose error line 212
    drops: see [element_without_value_cuts_series] below.) *)
Theorem decoded_series_keeps_every_element (arrayData : RawValue) (all : Dataset)
    (country : string) (value : RawValue) :
  (last_value country (object_entries arrayData) = Some value ->
   fst (decode object_entries object_err array_elems Unmarshal arrayData all) !! country
   = Some (decoded_series array_elems Unmarshal value)) /\
  length (decoded_series array_elems Unmarshal value) = length (array_elems value) /\
  (forall (i : nat) elem, array_elems value !! i = Some elem ->
     decoded_series array_elems Unmarshal value !! i
     = Some (fst (Unmarshal elem zeroDayItem))) /\
  (forall (i : nat) elem, array_elems value !! i = Some elem ->
     fst (Unmarshal elem zeroDayItem) = zeroDayItem ->
     decoded_series array_elems Unmarshal value !! i = Some zeroDayItem).
Proof.
  split; [|split; [|split]].
  - intros Hlast. unfold decode, ObjectEach.
    destruct (ObjectEach_walk_lookup (object_entries arrayData) (object_err arrayData)
                all country) as [_ H].
    rewrite H. by rewrite Hlast.
  - unfold decoded_series. apply length_map.
  - intros i elem Hi. unfold decoded_series.
    change (map ?f ?l) with (f <$> l). by rewrite list_lookup_fmap, Hi.
  - intros i elem Hi Hz. unfold decoded_series.
    change (map ?f ?l) with (f <$> l). rewrite list_lookup_fmap, Hi. simpl.
    by rewrite Hz.
Qed.
End DecoderFacts.

(** C9. With the error of [ObjectEach] as the specification has it:
    decoding yields the decode error exactly when the top-level value is not
    an object, whatever the arrays hold; a top-level array yields it, an
    object never does; and when [FetchData] returns, the error it returns
    is that of decoding. *)
Theorem decode_error_iff_not_object (array_elems : JValue -> list JValue)
    (Unmarshal : JValue -> DayItem -> DayItem * option error)
    (arrayData : JValue) (all : Dataset) :
  snd (decode json_object_entries json_object_err array_elems Unmarshal arrayData all)
    = (if is_object arrayData then None else Some "DecodeError") /\
  (forall elems,
     snd (decode json_object_entries json_object_err array_elems Unmarshal
                 (JArray elems) all) = Some "DecodeError") /\
  (forall members,
     snd (decode json_object_entries json_object_err array_elems Unmarshal
                 (JObject members) all) = None) /\
  (forall ch g g' err,
     FetchData json_object_entries json_object_err array_elems Unmarshal arrayData ch g
       = Returned (g', err) ->
     err = (if is_object arrayData then None else Some "DecodeError")).
Proof.
  split; [|split; [|split]].
  - rewrite decode_error. by destruct arrayData.
  - intros elems. by rewrite decode_error.
  - intros members. by rewrite decode_error.
  - intros ch g g' err H. apply FetchData_error in H. rewrite H. by destruct arrayData.
Qed.

(** The claim that a record with zero fields takes the place of every
    element that fails to parse does not hold with encoding/json: for the
    array [[{"date":"2020-1-22","confirmed":"x"}]], [json.Unmarshal] reports
    an error for the element, and the record appended carries the date that
    was decoded before the error. *)
Lemma failed_element_keeps_decoded_fields :
  snd (json_Unmarshal (JObject [("date", JString "2020-1-22"); ("confirmed", JString "x")])
                      zeroDayItem) = Some UnmarshalTypeError /\
  ArrayEach json_array_elems misfit_array (arrayCallback json_Unmarshal) []
    = [mkDayItem "2020-1-22" 0 0 0] /\
  ArrayEach json_array_elems misfit_array (arrayCallback json_Unmarshal) []
    <> [zeroDayItem].
Proof. repeat split. discriminate. Qed.

(** Nor is the series as long as the raw array in every case: [ArrayEach]
    stops at the first element with which no value starts, line 212 drops
    the error it returns, and the elements after that one are lost.  Of the
    three elements of [[{...}, xx, {...}]] one record is decoded. *)
Lemma element_without_value_cuts_series :
  cut_array = JArray [JObject [("date", JString "2020-1-22"); ("confirmed", JNumber 1)];
                      JGarbage;
                      JObject [("date", JString "2020-1-23"); ("confirmed", JNumber 2)]] /\
  decoded_series json_array_elems json_Unmarshal cut_array
    = [mkDayItem "2020-1-22" 1 0 0].
Proof. by split. Qed.

(** The series is never longer than the raw array, and as long when a value
    starts at every element. *)
Lemma decoded_series_at_most_array (elems : list JValue) :
  (length (decoded_series json_array_elems json_Unmarshal (JArray elems))
   <= length elems)%nat.
Proof.
  unfold decoded_series. rewrite length_map. simpl.
  induction elems as [|elem elems IH]; [done|].
  destruct elem; simpl; lia.
Qed.

Lemma decoded_series_of_whole_array (elems : list JValue) :
  JGarbage ∉ elems ->
  length (decoded_series json_array_elems json_Unmarshal (JArray elems)) = length elems.
Proof.
  unfold decoded_series. rewrite length_map. simpl.
  induction elems as [|elem elems IH]; [done|].
  intros Hno. rewrite not_elem_of_cons in Hno. destruct Hno as [Hne Hno].
  destruct elem; simpl; try (by rewrite IH); done.
Qed.

(** ** The recovered series of the bar chart *)

Lemma bar_recovered_step (index : Z) (item : DayItem) (acc : Accumulators)
    (rs : list DayItem) :
  totals_of Deaths (dMap acc) rs ->
  (forall date, get (rMap acc) date = bar_recovered rs date) ->
  forall date,
    get (rMap (aggregate_body BarChart index item acc)) date
    = bar_recovered (rs ++ [item]) date.
Proof.
  intros Hd Hr date. unfold aggregate_body. simpl rMap.
  pose proof (totals_of_step Deaths _ _ item Hd) as Hd'.
  rewrite get_insert. unfold bar_recovered.
  rewrite filter_app, filter_cons, filter_nil.
  case_decide as Hdate.
  - subst date. rewrite last_snoc. f_equal. apply Hd'.
  - rewrite app_nil_r. rewrite Hr. unfold bar_recovered.
    destruct (last (filter (fun r => Date r = date) rs)); [|done].
    f_equal. unfold field_total.
    by rewrite filter_app, filter_cons, filter_nil, decide_False, app_nil_r.
Qed.

Lemma bar_recovered_fold (index : Z) (items : list DayItem) (acc : Accumulators)
    (rs : list DayItem) :
  totals_of Deaths (dMap acc) rs ->
  (forall date, get (rMap acc) date = bar_recovered rs date) ->
  let acc' := fold_left (fun acc item => aggregate_body BarChart index item acc)
                        items acc in
  totals_of Deaths (dMap acc') (rs ++ items) /\
  (forall date, get (rMap acc') date = bar_recovered (rs ++ items) date).
Proof.
  revert acc rs. induction items as [|item items IH]; intros acc rs Hd Hr; simpl.
  - by rewrite app_nil_r.
  - replace (rs ++ item :: items) with ((rs ++ [item]) ++ items)
      by (by rewrite <- app_assoc).
    apply IH.
    + by apply (totals_of_step Deaths).
    + by apply bar_recovered_step.
Qed.

Lemma bar_recovered_countries (max index : Z) (order : list (string * list DayItem))
    (acc : Accumulators) (rs : list DayItem) :
  totals_of Deaths (dMap acc) rs ->
  (forall date, get (rMap acc) date = bar_recovered rs date) ->
  forall date,
    get (rMap (aggregate_countries BarChart max index order acc)) date
    = bar_recovered (rs ++ visited max order) date.
Proof.
  revert index acc rs. induction order as [|[k s] order IH]; intros index acc rs Hd Hr.
  - unfold visited. simpl. by rewrite app_nil_r.
  - simpl aggregate_countries. rewrite windowLoop_window.
    unfold visited. simpl map. simpl concat. rewrite app_assoc.
    destruct (bar_recovered_fold index (rev (window max s)) acc rs Hd Hr) as [Hd' Hr'].
    by apply IH.
Qed.

(** What the bar chart shows as recovered, for every dataset: per entry, the
    deaths total of the entry's date plus the recovered count of the one
    record of that date that was visited last. *)
Lemma bar_chart_recovered_value (all : Dataset)
    (order : list (string * list DayItem)) (max : Z) :
  exists sr,
    DrawCountryBarChart_series all order "all" max = Returned (Ok sr) /\
    rData sr = map (fun r => bar_recovered (visited max order) (Date r))
                   (first_window max order).
Proof.
  unfold DrawCountryBarChart_series. simpl String.eqb. cbv iota.
  pose proof (bar_recovered_countries max 0 order (mkAcc [] ∅ ∅ ∅) []) as Hr.
  simpl app in Hr.
  pose proof (aggregate_countries_labels BarChart max order (mkAcc [] ∅ ∅ ∅)) as Hl.
  simpl app in Hl.
  set (acc := aggregate_countries BarChart max 0 order (mkAcc [] ∅ ∅ ∅)) in *.
  simpl. rewrite ReverseStrings_rev, !ReverseFloats_rev. simpl.
  eexists. split; [reflexivity|]. simpl. rewrite Hl, rev_map_map_rev.
  apply map_ext. intros r. apply Hr; by intros d.
Qed.

Lemma single_neq (x : float) (l : list float) :
  same_single x [x] = true -> same_single x l = false -> l <> [x].
Proof. intros Hx Hl ->. congruence. Qed.

Lemma two_entries (ds : Dataset) (a b : string * list DayItem)
    (order : list (string * list DayItem)) :
  map_to_list ds = [a; b] ->
  order ≡ₚ map_to_list ds ->
  order = [a; b] \/ order = [b; a].
Proof.
  intros -> H. symmetry in H. by apply Permutation_length_2_inv in H.
Qed.

(** C1. The dataset of the specification's regression test: countries A and
    B with one record each of date d1, recovered 1 and 5, deaths 1 and 2;
    window of one day.  In whichever order the map is iterated, the bar
    chart's recovered value for d1 is not 6, the sum of the recovered
    fields: it is 8 when A comes first (the deaths total 3 plus B's
    recovered 5) and 4 when B comes first (the deaths total 3 plus A's
    recovered 1), because line 353 reads the deaths map.  Confirmed and
    deaths are 3 and 3, and the line chart, whose line 470 reads the
    recovered map, yields 6. *)
Theorem bar_chart_recovered_reads_deaths (order : list (string * list DayItem)) :
  order ≡ₚ map_to_list recovered_dataset ->
  (exists sr,
     DrawCountryBarChart_series recovered_dataset order "all" 1 = Returned (Ok sr) /\
     Labels sr = ["d1"] /\
     cData sr = [Float64.of_int 3] /\
     dData sr = [Float64.of_int 3] /\
     (rData sr = [Float64.of_int 8] \/ rData sr = [Float64.of_int 4]) /\
     rData sr <> [Float64.of_int 6]) /\
  DrawCountryLineChart_series recovered_dataset order "all" 1
    = Returned (Ok ([Float64.of_int 3], [Float64.of_int 3], [Float64.of_int 6])).
Proof.
  intros Hperm.
  destruct (two_entries recovered_dataset country_A country_B order) as [-> | ->];
    [by vm_compute | exact Hperm | |].
  - split; [|by vm_compute].
    eexists. split; [by vm_compute|]. simpl.
    split; [by vm_compute|]. split; [by vm_compute|]. split; [by vm_compute|].
    split; [left; by vm_compute|].
    apply single_neq; by vm_compute.
  - split; [|by vm_compute].
    eexists. split; [by vm_compute|]. simpl.
    split; [by vm_compute|]. split; [by vm_compute|]. split; [by vm_compute|].
    split; [right; by vm_compute|].
    apply single_neq; by vm_compute.
Qed.

(** The claim that every date of some country's window has an entry in the
    aligned view does not hold: with countries C and D whose only records
    are of 2020-3-1 and of 2020-3-2 and a window of one day, the view has
    the single entry of the country the iteration starts with, in either
    order, and the date of the other country has none. *)
Lemma aligned_view_misses_dates :
  map_to_list two_dates_dataset = [country_C; country_D] /\
  (exists r, r ∈ window 1 (snd country_D) /\ Date r = "2020-3-2") /\
  (exists r, r ∈ window 1 (snd country_C) /\ Date r = "2020-3-1") /\
  DrawCountryBarChart_series two_dates_dataset [country_C; country_D] "all" 1
    = Returned (Ok (mkSeries ["2020-3-1"] [Float64.of_int 7] [Float64.of_int 1]
                             [Float64.of_int 1])) /\
  ("2020-3-2" ∉ ["2020-3-1"]) /\
  DrawCountryBarChart_series two_dates_dataset [country_D; country_C] "all" 1
    = Returned (Ok (mkSeries ["2020-3-2"] [Float64.of_int 9] [Float64.of_int 2]
                             [Float64.of_int 3])) /\
  ("2020-3-1" ∉ ["2020-3-2"]).
Proof.
  split; [by vm_compute|].
  split; [eexists; split; [apply list_elem_of_here|reflexivity]|].
  split; [eexists; split; [apply list_elem_of_here|reflexivity]|].
  split; [by vm_compute|].
  split; [by intros [=]%list_elem_of_singleton|].
  split; [by vm_compute|].
  by intros [=]%list_elem_of_singleton.
Qed.

(** ** The theorems at work on the sample datasets *)

(** Every series of a dataset given in full is non-empty. *)
Ltac series_nonempty :=
  let k := fresh "k" in
  let s := fresh "s" in
  let Hk := fresh "Hk" in
  intros k s Hk; apply elem_of_map_to_list in Hk; vm_compute in Hk;
  repeat (apply elem_of_cons in Hk as [Hk|Hk]; [by injection Hk as -> ->|]);
  by apply elem_of_nil in Hk.

(** A slice of two elements is sorted when the second is not [Less] than the
    first. *)
Ltac sorted_pair :=
  let i := fresh "i" in
  let Hi := fresh "Hi" in
  intros i ? Hi; cbn in Hi; unfold len in Hi; simpl in Hi;
  assert (i = 1) as -> by lia; reflexivity.

Lemma PrintSummary_sums_latest_witness :
  PrintSummary_totals (map_to_list summary_dataset) = Returned (15, 4, 6).
Proof.
  rewrite (proj1 (PrintSummary_sums_latest summary_dataset (map_to_list summary_dataset)
                    ltac:(reflexivity) ltac:(series_nonempty))).
  by vm_compute.
Defined.

Lemma PrintCountry_single_record_panics_witness :
  PrintCountry_rows (mkGlobals history_dataset [] []) "Short" 100 = Panic /\
  PrintCountry_rows (mkGlobals history_dataset [] []) "Long" 100
    = Returned (Ok [mkRow "Long" 8 1 2 5 0 2]).
Proof.
  split.
  - apply (proj1 (PrintCountry_single_record_panics
                    (mkGlobals history_dataset [] []) "Short" 100 ltac:(discriminate))
                 (mkDayItem "2020-1-22" 4 0 0)).
    by vm_compute.
  - apply (proj2 (PrintCountry_single_record_panics
                    (mkGlobals history_dataset [] []) "Long" 100 ltac:(discriminate))
                 [mkDayItem "2020-1-22" 1 0 0]
                 (mkDayItem "2020-1-23" 3 1 0) (mkDayItem "2020-1-24" 8 1 2)).
    by vm_compute.
Defined.

Lemma unknown_country_is_not_found_witness :
  PrintCountry_rows (mkGlobals summary_dataset [] []) "X" 100
    = Returned (Err country_not_found) /\
  DrawCountryBarChart_series summary_dataset (map_to_list summary_dataset) "X" 10
    = Returned (Err country_not_found) /\
  DrawCountryLineChart_series summary_dataset (map_to_list summary_dataset) "X" 10
    = Returned (Err country_not_found).
Proof.
  apply (unknown_country_is_not_found (mkGlobals summary_dataset [] [])
           (map_to_list summary_dataset) "X" 10).
  - discriminate.
  - by vm_compute.
Defined.

Lemma windowed_series_chronological_witness :
  DrawCountryBarChart_series history_dataset (map_to_list history_dataset) "Long" 2
    = Returned (Ok (mkSeries ["2020-1-23"; "2020-1-24"]
                             [Float64.of_int 3; Float64.of_int 8]
                             [Float64.of_int 1; Float64.of_int 1]
                             [Float64.of_int 0; Float64.of_int 2])).
Proof.
  apply (windowed_series_chronological history_dataset (map_to_list history_dataset)
           "Long" 2 [mkDayItem "2020-1-22" 1 0 0; mkDayItem "2020-1-23" 3 1 0;
                     mkDayItem "2020-1-24" 8 1 2]).
  - discriminate.
  - by vm_compute.
  - lia.
Defined.

Lemma NameIndex_strictly_ascending_witness :
  (exists names,
     FetchData_names reversed_order
                     (sort_Sort_swaps (map fst reversed_order : StringSlice)) []
       = Returned names /\
     (forall (i j : nat) x y, (i < j)%nat ->
        names !! i = Some x -> names !! j = Some y -> String.ltb x y = true) /\
     NoDup names /\
     (forall k, k ∈ names <-> is_Some (summary_dataset !! k))) /\
  map fst reversed_order = ["B"; "A"] /\
  FetchData_names reversed_order
                  (sort_Sort_swaps (map fst reversed_order : StringSlice)) []
    = Returned ["A"; "B"].
Proof.
  split; [|split; by vm_compute].
  apply (NameIndex_strictly_ascending summary_dataset reversed_order).
  assert (Hlist : map_to_list summary_dataset = rev reversed_order) by (by vm_compute).
  rewrite Hlist. apply Permutation_rev.
Defined.

Lemma RankIndex_descending_witness :
  (exists ranks,
     FetchData_ranks (map_to_list summary_dataset)
                     (sort_Sort_swaps (latest_pairs (map_to_list summary_dataset))) []
       = Returned ranks /\
     length ranks = size summary_dataset /\
     map Key ranks ≡ₚ map fst (map_to_list summary_dataset) /\
     (forall p, p ∈ ranks ->
        exists s r, summary_dataset !! Key p = Some s /\ last s = Some r /\
                    Value p = Confirmed r) /\
     (forall (i j : nat) pi pj, (i < j)%nat ->
        ranks !! i = Some pi -> ranks !! j = Some pj -> Value pi >= Value pj)) /\
  latest_pairs (map_to_list summary_dataset) = [mkPair "A" 5; mkPair "B" 10] /\
  FetchData_ranks (map_to_list summary_dataset)
                  (sort_Sort_swaps (latest_pairs (map_to_list summary_dataset))) []
    = Returned [mkPair "B" 10; mkPair "A" 5].
Proof.
  split; [|split; by vm_compute].
  apply (RankIndex_descending summary_dataset (map_to_list summary_dataset)).
  - reflexivity.
  - series_nonempty.
Defined.

Lemma bar_chart_recovered_reads_deaths_witness :
  (exists sr,
     DrawCountryBarChart_series recovered_dataset (map_to_list recovered_dataset) "all" 1
       = Returned (Ok sr) /\
     Labels sr = ["d1"] /\
     cData sr = [Float64.of_int 3] /\
     dData sr = [Float64.of_int 3] /\
     (rData sr = [Float64.of_int 8] \/ rData sr = [Float64.of_int 4]) /\
     rData sr <> [Float64.of_int 6]) /\
  DrawCountryLineChart_series recovered_dataset (map_to_list recovered_dataset) "all" 1
    = Returned (Ok ([Float64.of_int 3], [Float64.of_int 3], [Float64.of_int 6])).
Proof.
  apply (bar_chart_recovered_reads_deaths (map_to_list recovered_dataset)).
  reflexivity.
Defined.

(** * Further properties of the code *)

(** ** ReverseStrings and ReverseFloats *)

(** X1. [ReverseStrings] and [ReverseFloats] never panic and return the
    slice in the opposite order, whatever its length (empty, odd or even);
    reversing twice gives the slice back. *)
Theorem Reverse_in_place_reverses (labels : list string) (data : list float) :
  ReverseStrings labels = Returned (rev labels) /\
  ReverseFloats data = Returned (rev data) /\
  (s ← ReverseStrings labels; ReverseStrings s) = Returned labels /\
  (s ← ReverseFloats data; ReverseFloats s) = Returned data.
Proof.
  unfold ReverseStrings, ReverseFloats.
  rewrite !reverse_loop_whole. simpl.
  by rewrite !reverse_loop_whole, !rev_involutive.
Qed.

(** ** PairList as a sort.Interface *)

(** X2. [Swap(i, j)] on a PairList with both indexes in range exchanges the
    elements at [i] and [j], leaves every other position and the length as
    they were, so the slice holds the same pairs as before; with an index
    out of range it panics. *)
Theorem PairList_Swap_exchanges (p : PairList) (i j : Z) :
  (0 <= i < Len p -> 0 <= j < Len p ->
   exists p',
     Swap p i j = Returned p' /\
     length p' = length p /\
     p' ≡ₚ p /\
     p' !! Z.to_nat i = p !! Z.to_nat j /\
     p' !! Z.to_nat j = p !! Z.to_nat i /\
     (forall k : nat, k <> Z.to_nat i -> k <> Z.to_nat j -> p' !! k = p !! k)) /\
  (i < 0 \/ Len p <= i \/ j < 0 \/ Len p <= j -> Swap p i j = Panic).
Proof. exact (swap_elems_exchanges p i j). Qed.

(** X3. [Less] on a PairList compares the counts, larger first: between
    positions in range it is irreflexive, asymmetric and transitive, and so
    is its complement (equal counts are ties), as [sort.Sort] requires of a
    [Less]. *)
Theorem PairList_Less_orders (p : PairList) (i j k : nat) (a b c : Pair) :
  p !! i = Some a -> p !! j = Some b -> p !! k = Some c ->
  Less p (Z.of_nat i) (Z.of_nat j) = Returned (Value a >? Value b) /\
  Less p (Z.of_nat i) (Z.of_nat i) = Returned false /\
  (Less p (Z.of_nat i) (Z.of_nat j) = Returned true ->
   Less p (Z.of_nat j) (Z.of_nat i) = Returned false) /\
  (Less p (Z.of_nat i) (Z.of_nat j) = Returned true ->
   Less p (Z.of_nat j) (Z.of_nat k) = Returned true ->
   Less p (Z.of_nat i) (Z.of_nat k) = Returned true) /\
  (Less p (Z.of_nat i) (Z.of_nat j) = Returned false ->
   Less p (Z.of_nat j) (Z.of_nat k) = Returned false ->
   Less p (Z.of_nat i) (Z.of_nat k) = Returned false).
Proof.
  intros Hi Hj Hk. simpl Less.
  rewrite !(at_index_Some _ _ _ Hi), !(at_index_Some _ _ _ Hj), !(at_index_Some _ _ _ Hk).
  simpl.
  repeat split.
  - f_equal. destruct (Z.gtb_spec (Value a) (Value a)); [lia|done].
  - intros [= H]. f_equal. destruct (Z.gtb_spec (Value a) (Value b)); [|done].
    destruct (Z.gtb_spec (Value b) (Value a)); [lia|done].
  - intros [= H1] [= H2]. f_equal.
    destruct (Z.gtb_spec (Value a) (Value b)); [|done].
    destruct (Z.gtb_spec (Value b) (Value c)); [|done].
    destruct (Z.gtb_spec (Value a) (Value c)); [done|lia].
  - intros [= H1] [= H2]. f_equal.
    destruct (Z.gtb_spec (Value a) (Value b)); [done|].
    destruct (Z.gtb_spec (Value b) (Value c)); [done|].
    destruct (Z.gtb_spec (Value a) (Value c)); [lia|done].
Qed.

(** ** FetchData *)

(** X4. After decoding, the series of a country is the one decoded from the
    last entry that [ObjectEach] delivered under its name: an earlier entry
    with the same key is overwritten.  A country without an entry keeps the
    series that [AllValues] held before, since the map is never cleared.
    Both hold whether or not [ObjectEach] ends with an error. *)
Theorem decode_last_entry_wins {RawValue : Type}
    (object_entries : RawValue -> list (string * RawValue))
    (object_err : RawValue -> option error)
    (array_elems : RawValue -> list RawValue)
    (Unmarshal : RawValue -> DayItem -> DayItem * option error)
    (arrayData : RawValue) (all : Dataset) (country : string) :
  fst (decode object_entries object_err array_elems Unmarshal arrayData all) !! country
  = match last_value country (object_entries arrayData) with
    | Some value => Some (decoded_series array_elems Unmarshal value)
    | None => all !! country
    end.
Proof. unfold decode, ObjectEach. apply ObjectEach_walk_lookup. Qed.

Lemma ranks_fold_Returned (order : list (string * list DayItem)) (ranks r : PairList) :
  foldM FetchData_ranks_step order ranks = Returned r ->
  Forall (fun kv => snd kv <> []) order /\ r = ranks ++ latest_pairs order.
Proof.
  revert ranks. induction order as [|[c v] order IH]; intros ranks; simpl.
  - intros [= <-]. split; [constructor|]. by rewrite app_nil_r.
  - rewrite at_index_last. destruct (last v) as [x|] eqn:Hlast; [|done]. simpl.
    intros H. apply IH in H as [Hne ->]. split.
    + constructor; [|done]. simpl. intros ->. done.
    + unfold latest_pairs. simpl. unfold latest_pair at 2. simpl. rewrite Hlast. simpl.
      by rewrite <- app_assoc.
Qed.

Lemma sort_Sort_strings_Permutation (names names' : list string) (swaps : list (Z * Z)) :
  sort_Sort (names : StringSlice) swaps = Returned names' -> names' ≡ₚ names.
Proof. apply (swaps_Permutation swaps). Qed.

Lemma sort_Sort_pairs_Permutation (ranks ranks' : PairList) (swaps : list (Z * Z)) :
  sort_Sort ranks swaps = Returned ranks' -> ranks' ≡ₚ ranks.
Proof. apply (swaps_Permutation swaps). Qed.

(** X5. [FetchData] appends to the two indexes, it does not rebuild them:
    when lines 222-230 come back, the name index holds the names it held
    before together with every key of the map, and the rank index the pairs
    it held before together with one pair per country.  A second
    [FetchData] in one process would list every country twice. *)
Theorem FetchData_appends_to_indexes
    (names_order ranks_order : list (string * list DayItem))
    (names_swaps ranks_swaps : list (Z * Z))
    (names names' : list string) (ranks ranks' : PairList) :
  FetchData_names names_order names_swaps names = Returned names' ->
  FetchData_ranks ranks_order ranks_swaps ranks = Returned ranks' ->
  names' ≡ₚ names ++ map fst names_order /\
  ranks' ≡ₚ ranks ++ latest_pairs ranks_order /\
  length names' = (length names + length names_order)%nat /\
  length ranks' = (length ranks + length ranks_order)%nat.
Proof.
  unfold FetchData_names, FetchData_ranks. rewrite names_fold.
  intros Hn Hr.
  apply sort_Sort_strings_Permutation in Hn.
  destruct (foldM FetchData_ranks_step ranks_order ranks) as [r|] eqn:Hfold; [|done].
  simpl in Hr. apply sort_Sort_pairs_Permutation in Hr.
  apply ranks_fold_Returned in Hfold as [Hne ->].
  split; [done|]. split; [done|]. split.
  - by rewrite (Permutation_length Hn), length_app, length_map.
  - rewrite (Permutation_length Hr), length_app.
    by rewrite <- (length_map Key (latest_pairs _)), (latest_pairs_keys _ Hne), length_map.
Qed.

Lemma FetchData_Returned {RawValue : Type}
    (object_entries : RawValue -> list (string * RawValue))
    (object_err : RawValue -> option error)
    (array_elems : RawValue -> list RawValue)
    (Unmarshal : RawValue -> DayItem -> DayItem * option error)
    (arrayData : RawValue) (ch : Choices) (g g' : Globals) (err : option error) :
  FetchData object_entries object_err array_elems Unmarshal arrayData ch g
    = Returned (g', err) ->
  AllValues g'
    = fst (decode object_entries object_err array_elems Unmarshal arrayData (AllValues g)) /\
  FetchData_names (names_order ch) (names_swaps ch) (NameSortedCountries g)
    = Returned (NameSortedCountries g') /\
  FetchData_ranks (ranks_order ch) (ranks_swaps ch) (ValueSortedCountries g)
    = Returned (ValueSortedCountries g').
Proof.
  unfold FetchData.
  destruct (decode _ _ _ _ _ _) as [all e].
  destruct (FetchData_names _ _ _) as [names|]; [|done]. simpl.
  destruct (FetchData_ranks _ _ _) as [ranks|]; [|done]. simpl.
  by intros [= <- _].
Qed.

(** X6. A country whose decoded series is empty (its value is [[]], or not
    an array at all) makes [FetchData] panic, whatever else the input holds
    and whatever error [ObjectEach] has found: line 228 reads
    [v[len(v)-1]] for every country. *)
Theorem FetchData_empty_series_panics {RawValue : Type}
    (object_entries : RawValue -> list (string * RawValue))
    (object_err : RawValue -> option error)
    (array_elems : RawValue -> list RawValue)
    (Unmarshal : RawValue -> DayItem -> DayItem * option error)
    (arrayData : RawValue) (ch : Choices) (g : Globals) (country : string) :
  ranks_order ch ≡ₚ
    map_to_list (fst (decode object_entries object_err array_elems Unmarshal
                             arrayData (AllValues g))) ->
  fst (decode object_entries object_err array_elems Unmarshal arrayData (AllValues g))
    !! country = Some [] ->
  FetchData object_entries object_err array_elems Unmarshal arrayData ch g = Panic.
Proof.
  intros Hperm Hempty.
  destruct (FetchData object_entries object_err array_elems Unmarshal arrayData ch g)
    as [[g' err]|] eqn:Hrun; [|done].
  exfalso. apply FetchData_Returned in Hrun as (_ & _ & Hranks).
  unfold FetchData_ranks in Hranks.
  destruct (foldM FetchData_ranks_step (ranks_order ch) (ValueSortedCountries g))
    as [r|] eqn:Hfold; [|done].
  apply ranks_fold_Returned in Hfold as [Hne _].
  rewrite Forall_forall in Hne.
  apply (Hne (country, [])); [|done].
  rewrite Hperm. by apply elem_of_map_to_list.
Qed.

(** X7. Once [FetchData] has come back without error, [PrintSummary] cannot
    panic: every series of [AllValues] is then non-empty, so the read of the
    last record at line 240 is in range for every country, and the three
    totals are printed. *)
Theorem PrintSummary_returns_after_FetchData {RawValue : Type}
    (object_entries : RawValue -> list (string * RawValue))
    (object_err : RawValue -> option error)
    (array_elems : RawValue -> list RawValue)
    (Unmarshal : RawValue -> DayItem -> DayItem * option error)
    (arrayData : RawValue) (ch : Choices) (order : list (string * list DayItem))
    (g g' : Globals) :
  FetchData object_entries object_err array_elems Unmarshal arrayData ch g
    = Returned (g', None) ->
  ranks_order ch ≡ₚ map_to_list (AllValues g') ->
  order ≡ₚ map_to_list (AllValues g') ->
  (forall k s, AllValues g' !! k = Some s -> s <> []) /\
  exists totals,
    PrintSummary object_entries object_err array_elems Unmarshal arrayData ch order g
      = Returned (g', Ok totals).
Proof.
  intros Hrun Hranks Horder.
  pose proof (FetchData_Returned _ _ _ _ _ _ _ _ _ Hrun) as (_ & _ & Hr).
  unfold FetchData_ranks in Hr.
  destruct (foldM FetchData_ranks_step (ranks_order ch) (ValueSortedCountries g))
    as [r|] eqn:Hfold; [|done].
  apply ranks_fold_Returned in Hfold as [Hne _].
  assert (Hall : forall k s, AllValues g' !! k = Some s -> s <> []).
  { intros k s Hk. rewrite Forall_forall in Hne.
    apply (Hne (k, s)). rewrite Hranks. by apply elem_of_map_to_list. }
  split; [exact Hall|].
  unfold PrintSummary. rewrite Hrun. simpl.
  unfold PrintSummary_totals.
  rewrite PrintSummary_fold by eauto using nonempty_entries.
  simpl. eauto.
Qed.

(** ** The table of all countries *)

Lemma country_row_delta_row (all : Dataset) (p : Pair) :
  country_row (Key p) (default [] (all !! Key p))
  = match delta_row all p with
    | Some row => Returned row
    | None => Panic
    end.
Proof.
  unfold delta_row.
  destruct (rev (default [] (all !! Key p))) as [|l [|ml t]] eqn:Hrev.
  - apply (f_equal (@rev DayItem)) in Hrev. rewrite rev_involutive in Hrev.
    by rewrite Hrev.
  - apply (f_equal (@rev DayItem)) in Hrev. rewrite rev_involutive in Hrev.
    rewrite Hrev. reflexivity.
  - apply (f_equal (@rev DayItem)) in Hrev. rewrite rev_involutive in Hrev.
    rewrite Hrev. simpl rev. rewrite <- !app_assoc. simpl app.
    apply country_row_two_records.
Qed.

Lemma all_rows_take (all : Dataset) (max idx : Z) (pairs : PairList) (rows : list Row) :
  0 <= idx ->
  all_rows all max idx pairs rows
  = match mapM (delta_row all) (take (remaining max idx (length pairs)) pairs) with
    | Some shown_rows => Returned (rows ++ shown_rows)
    | None => Panic
    end.
Proof.
  revert idx rows. induction pairs as [|p pairs IH]; intros idx rows Hidx.
  - simpl. unfold remaining. destruct (max <? idx); simpl; [|rewrite Nat.min_0_r; simpl];
      by rewrite app_nil_r.
  - simpl all_rows. unfold remaining. simpl length.
    destruct (Z.eqb_spec idx max) as [->|Hne].
    + rewrite Z.ltb_irrefl, Z.sub_diag. simpl. by rewrite app_nil_r.
    + rewrite country_row_delta_row.
      assert (Htake : take (if max <? idx then Datatypes.S (length pairs)
                            else Nat.min (Z.to_nat (max - idx)) (Datatypes.S (length pairs)))
                           (p :: pairs)
                      = p :: take (remaining max (idx + 1) (length pairs)) pairs).
      { unfold remaining.
        destruct (Z.ltb_spec max idx), (Z.ltb_spec max (idx + 1)); try lia; [done|].
        replace (Z.to_nat (max - idx)) with (Datatypes.S (Z.to_nat (max - (idx + 1))))
          by lia.
        by rewrite <- Nat.succ_min_distr. }
      rewrite Htake. simpl mapM.
      destruct (delta_row all p) as [row|]; [|done]. simpl.
      rewrite IH by lia.
      destruct (mapM (delta_row all) _) as [rs|]; simpl; [|done].
      by rewrite <- app_assoc.
Qed.

Lemma PrintCountry_all_rows_take (g : Globals) (max : Z) :
  PrintCountry_rows g "all" max
  = match mapM (delta_row (AllValues g))
               (take (shown max (length (ValueSortedCountries g)))
                     (ValueSortedCountries g)) with
    | Some rows => Returned (Ok rows)
    | None => Panic
    end.
Proof.
  unfold PrintCountry_rows. simpl String.eqb. cbv iota.
  rewrite all_rows_take by lia.
  replace (remaining max 0 (length (ValueSortedCountries g)))
    with (shown max (length (ValueSortedCountries g)))
    by (unfold remaining, shown; by rewrite Z.sub_0_r).
  by destruct (mapM _ _).
Qed.

(** X8. The "all" table lists the first [max] countries of the rank index,
    in the order of the index: all of them when [max] is negative or larger
    than their number, none when [max] is 0.  Each row holds the country's
    latest counts and the differences to the record before.  The run panics
    exactly when one of the countries listed has fewer than two records (or
    is missing from the map). *)
Theorem PrintCountry_all_lists_ranked (g : Globals) (max : Z) :
  PrintCountry_rows g "all" max
  = match mapM (delta_row (AllValues g))
               (take (shown max (length (ValueSortedCountries g)))
                     (ValueSortedCountries g)) with
    | Some rows => Returned (Ok rows)
    | None => Panic
    end.
Proof. apply PrintCountry_all_rows_take. Qed.

Lemma delta_row_latest (all : Dataset) (p : Pair) (s : list DayItem) (l : DayItem) :
  all !! Key p = Some s -> last s = Some l -> (2 <= length s)%nat ->
  exists row, delta_row all p = Some row /\
              row_country row = Key p /\ row_confirmed row = Confirmed l.
Proof.
  intros Hs Hlast Hlen. unfold delta_row. rewrite Hs. simpl.
  destruct (rev s) as [|l0 [|ml t]] eqn:Hrev;
    try (apply (f_equal (@length DayItem)) in Hrev; rewrite length_rev in Hrev;
         simpl in Hrev; lia).
  apply (f_equal (@rev DayItem)) in Hrev. rewrite rev_involutive in Hrev.
  simpl in Hrev. rewrite Hrev, last_snoc in Hlast. injection Hlast as ->.
  eexists. by repeat split.
Qed.

Lemma mapM_delta_rows (all : Dataset) (ps : PairList) :
  Forall (fun p => exists row, delta_row all p = Some row /\
                     row_country row = Key p /\ row_confirmed row = Value p) ps ->
  exists rows, mapM (delta_row all) ps = Some rows /\
               map row_country rows = map Key ps /\
               map row_confirmed rows = map Value ps.
Proof.
  induction 1 as [|p ps (row & Hrow & Hc & Hv) _ (rows & Hrows & Hcs & Hvs)].
  - by exists [].
  - exists (row :: rows). simpl. rewrite Hrow. simpl. rewrite Hrows. simpl.
    by rewrite Hc, Hv, Hcs, Hvs.
Qed.

(** X9. In a fresh process, when [FetchData] has come back without error,
    [sort.Sort] has left the rank index sorted and every country has two
    records or more, [PrintCountry("all", max)] returns a table of the
    [max] countries with the most confirmed cases (all countries when [max]
    is negative or exceeds their number): its rows follow the rank index,
    and their confirmed counts descend. *)
Theorem PrintCountry_all_sorted_by_confirmed {RawValue : Type}
    (object_entries : RawValue -> list (string * RawValue))
    (object_err : RawValue -> option error)
    (array_elems : RawValue -> list RawValue)
    (Unmarshal : RawValue -> DayItem -> DayItem * option error)
    (arrayData : RawValue) (ch : Choices) (g g' : Globals) (max : Z) :
  ValueSortedCountries g = [] ->
  FetchData object_entries object_err array_elems Unmarshal arrayData ch g
    = Returned (g', None) ->
  ranks_order ch ≡ₚ map_to_list (AllValues g') ->
  sorted_by_Less (ValueSortedCountries g') ->
  (forall k s, AllValues g' !! k = Some s -> (2 <= length s)%nat) ->
  exists rows,
    PrintCountry object_entries object_err array_elems Unmarshal arrayData ch g "all" max
      = Returned (g', Ok rows) /\
    length rows = shown max (size (AllValues g')) /\
    map row_country rows = map Key (take (length rows) (ValueSortedCountries g')) /\
    (forall (i j : nat) x y, (i < j)%nat ->
       rows !! i = Some x -> rows !! j = Some y -> row_confirmed x >= row_confirmed y).
Proof.
  intros Hfresh Hrun Hperm Hsorted Htwo.
  pose proof (FetchData_Returned _ _ _ _ _ _ _ _ _ Hrun) as (_ & _ & Hr).
  rewrite Hfresh in Hr. unfold FetchData_ranks in Hr.
  destruct (foldM FetchData_ranks_step (ranks_order ch) []) as [r|] eqn:Hfold; [|done].
  apply ranks_fold_Returned in Hfold as [Hne ->]. simpl in Hr.
  apply sort_Sort_pairs_Permutation in Hr.
  set (ranks := ValueSortedCountries g') in *.
  assert (Hlen : length ranks = size (AllValues g')).
  { rewrite (Permutation_length Hr).
    rewrite <- (length_map Key), (latest_pairs_keys _ Hne), length_map.
    rewrite (Permutation_length Hperm). apply length_map_to_list. }
  assert (Hrows : Forall (fun p => exists row, delta_row (AllValues g') p = Some row /\
                     row_country row = Key p /\ row_confirmed row = Value p) ranks).
  { apply Forall_forall. intros p Hp. rewrite Hr in Hp.
    apply list_elem_of_omap in Hp as ([c v] & Hin & Hpair).
    rewrite Hperm in Hin. apply elem_of_map_to_list in Hin.
    unfold latest_pair in Hpair. simpl in Hpair.
    destruct (last v) as [l|] eqn:Hlast; [|done]. injection Hpair as <-. simpl.
    destruct (delta_row_latest (AllValues g') (mkPair c (Confirmed l)) v l)
      as (row & Hrow & Hc & Hv); eauto. }
  assert (Hdesc : forall (i j : nat) p q, (i < j)%nat ->
            ranks !! i = Some p -> ranks !! j = Some q -> count_ge p q).
  { apply (neighbours_to_all count_ge ranks).
    intros i x y Hi Hj. unfold count_ge.
    pose proof (sorted_neighbours (fun p q => Value p >? Value q) ranks i x y
                  Hsorted Hi Hj) as Hgt.
    simpl in Hgt. destruct (Z.gtb_spec (Value y) (Value x)); [done|lia]. }
  destruct (mapM_delta_rows (AllValues g') (take (shown max (length ranks)) ranks))
    as (rows & Hmap & Hcs & Hvs).
  { by apply Forall_take. }
  assert (Hn : length rows = shown max (length ranks)).
  { rewrite <- (length_map row_country), Hcs, length_map, length_take.
    unfold shown. destruct (max <? 0); lia. }
  exists rows. split; [|split; [|split]].
  - unfold PrintCountry. rewrite Hrun. simpl.
    rewrite PrintCountry_all_rows_take. fold ranks. by rewrite Hmap.
  - by rewrite Hn, Hlen.
  - by rewrite Hcs, Hn.
  - intros i j x y Hij Hi Hj.
    assert (Hvi : map Value (take (shown max (length ranks)) ranks) !! i
                  = Some (row_confirmed x)).
    { rewrite <- Hvs. change (map ?f ?l) with (f <$> l).
      by rewrite list_lookup_fmap, Hi. }
    assert (Hvj : map Value (take (shown max (length ranks)) ranks) !! j
                  = Some (row_confirmed y)).
    { rewrite <- Hvs. change (map ?f ?l) with (f <$> l).
      by rewrite list_lookup_fmap, Hj. }
    change (map ?f ?l) with (f <$> l) in Hvi, Hvj.
    rewrite list_lookup_fmap in Hvi, Hvj.
    destruct (take _ ranks !! i) as [p|] eqn:Hp; [|done].
    destruct (take _ ranks !! j) as [q|] eqn:Hq; [|done].
    simpl in Hvi, Hvj. injection Hvi as <-. injection Hvj as <-.
    apply lookup_take_Some in Hp as [Hp _], Hq as [Hq _].
    exact (Hdesc i j p q Hij Hp Hq).
Qed.

(** ** The charts *)

Lemma window_whole (max : Z) (s : list DayItem) : max <= 0 -> window max s = s.
Proof. intros H. unfold window. by destruct (Z.leb_spec 1 max); [lia|]. Qed.

(** The series both charts collect for a country given by name. *)
Lemma named_country_series (all : Dataset) (order : list (string * list DayItem))
    (country : string) (max : Z) (s : list DayItem) :
  country <> "all" ->
  all !! country = Some s ->
  DrawCountryBarChart_series all order country max =
    Returned (Ok (mkSeries (map Date (window max s))
                           (map (float_of Confirmed) (window max s))
                           (map (float_of Deaths) (window max s))
                           (map (float_of Recovered) (window max s)))) /\
  DrawCountryLineChart_series all order country max =
    Returned (Ok (map (float_of Confirmed) (window max s),
                  map (float_of Deaths) (window max s),
                  map (float_of Recovered) (window max s))).
Proof.
  intros Hall Hs.
  unfold DrawCountryBarChart_series, DrawCountryLineChart_series.
  rewrite (eqb_all_false _ Hall), Hs, !windowLoop_window.
  rewrite country_body_fold, plot_body_fold. simpl.
  rewrite ReverseStrings_rev, !ReverseFloats_rev. simpl.
  by rewrite !rev_map_rev.
Qed.

(** X10. With [max] zero or negative the test [j == max] never holds, so
    both charts of a country given by name show its whole series, oldest
    record first; [--max 0] does not mean "no days". *)
Theorem charts_show_whole_series_without_max (all : Dataset)
    (order : list (string * list DayItem)) (country : string) (max : Z)
    (s : list DayItem) :
  country <> "all" ->
  all !! country = Some s ->
  max <= 0 ->
  DrawCountryBarChart_series all order country max =
    Returned (Ok (mkSeries (map Date s) (map (float_of Confirmed) s)
                           (map (float_of Deaths) s) (map (float_of Recovered) s))) /\
  DrawCountryLineChart_series all order country max =
    Returned (Ok (map (float_of Confirmed) s, map (float_of Deaths) s,
                  map (float_of Recovered) s)).
Proof.
  intros Hall Hs Hmax.
  rewrite <- (window_whole max s Hmax) at 1 2 3 4 5 6 7.
  by apply named_country_series.
Qed.

(** The series both charts collect for all countries. *)
Lemma all_countries_series (kind : ChartKind) (max : Z)
    (order : list (string * list DayItem)) :
  let acc := aggregate_countries kind max 0 order (mkAcc [] ∅ ∅ ∅) in
  labels acc = map Date (rev (first_window max order)) /\
  map (get (cMap acc)) (labels acc)
    = map (fun r => date_total Confirmed max order (Date r)) (rev (first_window max order)) /\
  map (get (dMap acc)) (labels acc)
    = map (fun r => date_total Deaths max order (Date r)) (rev (first_window max order)) /\
  (kind = LineChart ->
   map (get (rMap acc)) (labels acc)
     = map (fun r => date_total Recovered max order (Date r))
           (rev (first_window max order))).
Proof.
  intros acc.
  pose proof (aggregate_countries_aligned kind max 0 order _ [] (aligned_empty kind))
    as (Hc & Hd & Hr).
  simpl app in Hc, Hd, Hr.
  pose proof (aggregate_countries_labels kind max order (mkAcc [] ∅ ∅ ∅)) as Hl.
  simpl app in Hl. fold acc in Hc, Hd, Hr, Hl.
  split; [exact Hl|]. rewrite Hl, !map_map.
  split; [apply map_ext; intros r; apply Hc|].
  split; [apply map_ext; intros r; apply Hd|].
  intros Hk. apply map_ext. intros r. by apply Hr.
Qed.

(** X11. The two charts draw the same numbers wherever line 353 is not
    involved: for a country given by name the line chart's three series are
    the bar chart's three series, for every [max] (and both return the same
    error for an unknown name); for all countries the confirmed and the
    deaths series are the same, and the recovered series have the same
    length. *)
Theorem charts_agree (all : Dataset) (order : list (string * list DayItem))
    (country : string) (max : Z) :
  (country <> "all" ->
   DrawCountryLineChart_series all order country max
   = match DrawCountryBarChart_series all order country max with
     | Returned (Ok sr) => Returned (Ok (series_data sr))
     | Returned (Err e) => Returned (Err e)
     | Panic => Panic
     end) /\
  exists sr confirmed deaths recovered,
    DrawCountryBarChart_series all order "all" max = Returned (Ok sr) /\
    DrawCountryLineChart_series all order "all" max
      = Returned (Ok (confirmed, deaths, recovered)) /\
    cData sr = confirmed /\ dData sr = deaths /\
    length (rData sr) = length recovered.
Proof.
  split.
  - intros Hall. destruct (all !! country) as [s|] eqn:Hs.
    + destruct (named_country_series all order country max s Hall Hs) as [-> ->].
      reflexivity.
    + unfold DrawCountryBarChart_series, DrawCountryLineChart_series.
      by rewrite (eqb_all_false _ Hall), Hs.
  - unfold DrawCountryBarChart_series, DrawCountryLineChart_series.
    simpl String.eqb. cbv iota.
    destruct (all_countries_series BarChart max order) as (Hl & Hc & Hd & _).
    destruct (all_countries_series LineChart max order) as (Hl' & Hc' & Hd' & _).
    simpl. rewrite ReverseStrings_rev, !ReverseFloats_rev. simpl.
    do 4 eexists. split; [reflexivity|]. split; [reflexivity|]. simpl.
    rewrite Hc, Hc', Hd, Hd'. repeat split.
    by rewrite !length_rev, !length_map, Hl, Hl'.
Qed.

(** ** The aligned view on series with the same dates *)

Lemma filter_none {A} (P : A -> Prop) `{!forall x, Decision (P x)} (l : list A) :
  (forall x, x ∈ l -> ~ P x) -> filter P l = [].
Proof.
  induction l as [|x l IH]; intros Hno; [done|].
  rewrite filter_cons_False by (apply Hno; left).
  apply IH. intros y Hy. apply Hno. by right.
Qed.

Lemma filter_date_unique (w : list DayItem) (i : nat) (r : DayItem) :
  NoDup (map Date w) -> w !! i = Some r ->
  filter (fun x => Date x = Date r) w = [r].
Proof.
  revert i. induction w as [|x w IH]; intros i Hnd Hi; [done|].
  simpl in Hnd. apply NoDup_cons in Hnd as [Hx Hnd].
  destruct i as [|i]; simpl in Hi.
  - injection Hi as ->. rewrite filter_cons_True by done. f_equal.
    apply filter_none. intros y Hy E. apply Hx. rewrite <- E.
    change (map Date w) with (Date <$> w). by apply list_elem_of_fmap_2.
  - rewrite filter_cons_False; [by apply (IH i)|].
    intros E. apply Hx. rewrite E.
    change (map Date w) with (Date <$> w). apply list_elem_of_fmap_2.
    by apply list_elem_of_lookup_2 in Hi.
Qed.

Lemma filter_date_unique_rev (w : list DayItem) (i : nat) (r : DayItem) :
  NoDup (map Date w) -> w !! i = Some r ->
  filter (fun x => Date x = Date r) (rev w) = [r].
Proof.
  intros Hnd Hi. apply Permutation_singleton_r.
  rewrite <- (filter_date_unique w i r Hnd Hi).
  apply filter_Permutation. symmetry. apply Permutation_rev.
Qed.

Lemma date_total_column (field : DayItem -> Z) (max : Z)
    (order : list (string * list DayItem)) (dates : list string) (i : nat) (d : string) :
  same_dates max order dates -> dates !! i = Some d ->
  date_total field max order d = column_total field max order i.
Proof.
  intros [Hnd Hall] Hd. unfold date_total, field_total, column_total, visited.
  f_equal. induction Hall as [|[k s] order Hs _ IH]; [done|].
  simpl in Hs. simpl map. simpl concat. rewrite filter_app, map_app.
  rewrite <- Hs in Hd, Hnd.
  change (map Date ?l) with (Date <$> l) in Hd. rewrite list_lookup_fmap in Hd.
  destruct (window max s !! i) as [r|] eqn:Hr; [|done].
  simpl in Hd. injection Hd as <-.
  rewrite (filter_date_unique_rev _ i r Hnd Hr). simpl.
  rewrite Hr. simpl. f_equal.
  rewrite Hs in Hnd. apply IH.
Qed.

Lemma window_columns (field : DayItem -> Z) (max : Z)
    (order : list (string * list DayItem)) (dates : list string) :
  order <> [] -> same_dates max order dates ->
  map (fun r => date_total field max order (Date r)) (first_window max order)
  = map (column_total field max order) (seq 0 (length dates)).
Proof.
  intros Hne Hsame. pose proof Hsame as [Hnd Hall].
  destruct order as [|[k s] order]; [done|]. simpl first_window.
  apply Forall_cons in Hall as [Hs _]. simpl in Hs.
  apply list_eq. intros i.
  change (map ?f ?l) with (f <$> l). rewrite !list_lookup_fmap.
  destruct (decide (i < length dates)%nat) as [Hi|Hi].
  - rewrite lookup_seq_lt by done. simpl.
    destruct (lookup_lt_is_Some_2 dates i Hi) as [d Hd].
    pose proof Hd as Hd'. rewrite <- Hs in Hd'.
    change (map Date ?l) with (Date <$> l) in Hd'. rewrite list_lookup_fmap in Hd'.
    destruct (window max s !! i) as [r|]; [|done]. simpl in *.
    injection Hd' as ->. f_equal. by apply (date_total_column _ _ _ dates).
  - rewrite lookup_seq_ge by lia.
    rewrite lookup_ge_None_2; [done|].
    rewrite <- (length_map Date), Hs. lia.
Qed.

(** X12. When the windows of all countries hold the same dates, each date
    once (as in the data of the source, where every country has one record
    per day), the aligned view is the column sums: the labels are these
    dates, oldest first, and the confirmed and deaths value of the [i]-th
    entry (in the line chart the recovered value too) is the float64 sum
    over all countries of the field of the [i]-th record of the country's
    window. *)
Theorem aligned_view_sums_columns (all : Dataset)
    (order : list (string * list DayItem)) (max : Z) (dates : list string) :
  order <> [] ->
  same_dates max order dates ->
  (exists sr,
     DrawCountryBarChart_series all order "all" max = Returned (Ok sr) /\
     Labels sr = dates /\
     cData sr = map (column_total Confirmed max order) (seq 0 (length dates)) /\
     dData sr = map (column_total Deaths max order) (seq 0 (length dates))) /\
  DrawCountryLineChart_series all order "all" max =
    Returned (Ok (map (column_total Confirmed max order) (seq 0 (length dates)),
                  map (column_total Deaths max order) (seq 0 (length dates)),
                  map (column_total Recovered max order) (seq 0 (length dates)))).
Proof.
  intros Hne Hsame.
  assert (Hdates : map Date (first_window max order) = dates).
  { destruct Hsame as [_ Hall]. destruct order as [|[k s] order]; [done|].
    by apply Forall_cons in Hall as [Hs _]. }
  unfold DrawCountryBarChart_series, DrawCountryLineChart_series.
  simpl String.eqb. cbv iota. split.
  - destruct (all_countries_series BarChart max order) as (Hl & Hc & Hd & _).
    simpl. rewrite ReverseStrings_rev, !ReverseFloats_rev. simpl.
    eexists. split; [reflexivity|]. simpl.
    rewrite Hc, Hd, Hl, !rev_map_rev.
    by rewrite Hdates, !(window_columns _ _ _ dates).
  - destruct (all_countries_series LineChart max order) as (Hl & Hc & Hd & Hr).
    specialize (Hr eq_refl).
    simpl. rewrite !ReverseFloats_rev. simpl.
    rewrite Hc, Hd, Hr, !rev_map_rev.
    by rewrite !(window_columns _ _ _ dates).
Qed.

(** ** The bar chart of all countries, in full *)

(** X13. What [DrawCountryBarChart("all", max)] hands to its three charts,
    for every dataset, iteration order and [max]: one entry per record of
    the window of the country the iteration starts with, labelled with its
    date; confirmed and deaths are the totals of the date; the value shown
    as recovered is the deaths total of the date plus the recovered count of
    the one record of that date that the loops visited last. *)
Theorem bar_chart_of_all_countries (all : Dataset)
    (order : list (string * list DayItem)) (max : Z) :
  DrawCountryBarChart_series all order "all" max =
  Returned (Ok (mkSeries
    (map Date (first_window max order))
    (map (fun r => date_total Confirmed max order (Date r)) (first_window max order))
    (map (fun r => date_total Deaths max order (Date r)) (first_window max order))
    (map (fun r => bar_recovered (visited max order) (Date r)) (first_window max order)))).
Proof.
  unfold DrawCountryBarChart_series. simpl String.eqb. cbv iota.
  destruct (all_countries_series BarChart max order) as (Hl & Hc & Hd & _).
  pose proof (bar_recovered_countries max 0 order (mkAcc [] ∅ ∅ ∅) []) as Hr.
  simpl app in Hr.
  simpl. rewrite ReverseStrings_rev, !ReverseFloats_rev. simpl.
  rewrite Hc, Hd, Hl, !rev_map_rev, rev_map_map_rev.
  do 3 f_equal. apply map_ext. intros r. apply Hr; by intros d.
Qed.

(** ** The further properties at work on the sample inputs *)

(** Every series of a dataset given in full has two records or more. *)
Ltac series_long :=
  let k := fresh "k" in
  let s := fresh "s" in
  let Hk := fresh "Hk" in
  intros k s Hk; apply elem_of_map_to_list in Hk; vm_compute in Hk;
  repeat (apply elem_of_cons in Hk as [Hk|Hk]; [injection Hk as -> ->; simpl; lia|]);
  by apply elem_of_nil in Hk.

Lemma PairList_Less_orders_witness :
  Less [mkPair "B" 10; mkPair "A" 5] 0 1 = Returned true /\
  Less [mkPair "B" 10; mkPair "A" 5] 1 0 = Returned false.
Proof.
  pose proof (PairList_Less_orders [mkPair "B" 10; mkPair "A" 5] 0 1 1
                (mkPair "B" 10) (mkPair "A" 5) (mkPair "A" 5)
                eq_refl eq_refl eq_refl) as (H01 & _ & Hasym & _).
  split; [exact H01 | exact (Hasym H01)].
Defined.

Lemma FetchData_appends_to_indexes_witness :
  ["A"; "B"; "A"; "B"] ≡ₚ ["A"; "B"] ++ map fst (map_to_list summary_dataset) /\
  [mkPair "B" 10; mkPair "A" 5; mkPair "A" 5; mkPair "B" 10]
    ≡ₚ [mkPair "B" 10; mkPair "A" 5] ++ latest_pairs (map_to_list summary_dataset) /\
  length ["A"; "B"; "A"; "B"]
    = (length ["A"; "B"] + length (map_to_list summary_dataset))%nat /\
  length [mkPair "B" 10; mkPair "A" 5; mkPair "A" 5; mkPair "B" 10]
    = (length [mkPair "B" 10; mkPair "A" 5] + length (map_to_list summary_dataset))%nat.
Proof.
  apply (FetchData_appends_to_indexes
           (map_to_list summary_dataset) (map_to_list summary_dataset) [] []
           ["A"; "B"] ["A"; "B"; "A"; "B"] [mkPair "B" 10; mkPair "A" 5]
           [mkPair "B" 10; mkPair "A" 5; mkPair "A" 5; mkPair "B" 10]);
    by vm_compute.
Defined.

Lemma FetchData_empty_series_panics_witness :
  FetchData json_object_entries json_object_err json_array_elems json_Unmarshal
            empty_array_json (mkChoices [("A", [])] [] [("A", [])] []) initial_globals
  = Panic.
Proof.
  apply (FetchData_empty_series_panics json_object_entries json_object_err
           json_array_elems json_Unmarshal empty_array_json
           (mkChoices [("A", [])] [] [("A", [])] []) initial_globals "A");
    by vm_compute.
Defined.

Lemma PrintSummary_returns_after_FetchData_witness :
  (forall k s, AllValues sample_globals !! k = Some s -> s <> []) /\
  exists totals,
    PrintSummary json_object_entries json_object_err json_array_elems json_Unmarshal
                 sample_json sample_choices (map_to_list sample_decoded) initial_globals
    = Returned (sample_globals, Ok totals).
Proof.
  apply (PrintSummary_returns_after_FetchData json_object_entries json_object_err
           json_array_elems json_Unmarshal sample_json sample_choices
           (map_to_list sample_decoded) initial_globals sample_globals).
  - by vm_compute.
  - reflexivity.
  - reflexivity.
Defined.

Lemma PrintCountry_all_sorted_by_confirmed_witness :
  exists rows,
    PrintCountry json_object_entries json_object_err json_array_elems json_Unmarshal
                 sample_json sample_choices initial_globals "all" 100
      = Returned (sample_globals, Ok rows) /\
    length rows = shown 100 (size (AllValues sample_globals)) /\
    map row_country rows
      = map Key (take (length rows) (ValueSortedCountries sample_globals)) /\
    (forall (i j : nat) x y, (i < j)%nat ->
       rows !! i = Some x -> rows !! j = Some y -> row_confirmed x >= row_confirmed y).
Proof.
  apply (PrintCountry_all_sorted_by_confirmed json_object_entries json_object_err
           json_array_elems json_Unmarshal sample_json sample_choices
           initial_globals sample_globals 100).
  - reflexivity.
  - by vm_compute.
  - reflexivity.
  - sorted_pair.
  - series_long.
Defined.

Lemma charts_show_whole_series_without_max_witness :
  DrawCountryBarChart_series history_dataset (map_to_list history_dataset) "Long" 0
    = Returned (Ok (mkSeries ["2020-1-22"; "2020-1-23"; "2020-1-24"]
                             [Float64.of_int 1; Float64.of_int 3; Float64.of_int 8]
                             [Float64.of_int 0; Float64.of_int 1; Float64.of_int 1]
                             [Float64.of_int 0; Float64.of_int 0; Float64.of_int 2])).
Proof.
  apply (charts_show_whole_series_without_max history_dataset
           (map_to_list history_dataset) "Long" 0
           [mkDayItem "2020-1-22" 1 0 0; mkDayItem "2020-1-23" 3 1 0;
            mkDayItem "2020-1-24" 8 1 2]).
  - discriminate.
  - by vm_compute.
  - lia.
Defined.

Lemma aligned_view_sums_columns_witness :
  DrawCountryLineChart_series recovered_dataset [country_A; country_B] "all" 1
  = Returned (Ok ([Float64.of_int 3], [Float64.of_int 3], [Float64.of_int 6])).
Proof.
  assert (Hsame : same_dates 1 [country_A; country_B] ["d1"])
    by (split; [apply NoDup_singleton | repeat constructor]).
  assert (Hne : [country_A; country_B] <> []) by discriminate.
  rewrite (proj2 (aligned_view_sums_columns recovered_dataset [country_A; country_B] 1
                    ["d1"] Hne Hsame)).
  by vm_compute.
Defined.
